(** * pkce-utils: the client side of the OAuth 2.0 authorization-code flow
      with PKCE

    Embedded from [crypto.utils.ts] (the encoder and the nonces), the two
    revisions of the flow ([getChallenge], [redirectToLogin],
    [redirectToLogout], [exchangeCode], [handleCallback]), [schemas.ts],
    [zod.utils.ts] and the hand-written [validateAuth].

    Strings are [string]: a JavaScript string is read through its UTF-8
    bytes, which is what [TextEncoder] and the URL serialisers see.  Byte
    buffers are [list byte], and [sessionStorage] is a [gmap string string].
    The asynchronous functions are written in a state-and-exception monad
    over the state of the browser, one [await] after the other, with every
    storage, navigation and network effect appended to a log.  What the host
    computes and the code only calls (the digest, the URL parser,
    [JSON.stringify], the storage quota, zod's messages) is a parameter. *)

From Stdlib Require Import NArith ZArith QArith Lia Bool List Ascii String.
From Stdlib.Strings Require Import Byte.
From Stdlib Require Import DecimalString HexadecimalString DecimalN DecimalPos.
From stdpp Require Import base option gmap strings.
Import ListNotations.

Local Open Scope string_scope.
Local Open Scope N_scope.

(** ** Strings of the standard library of JavaScript *)

Module JsString.

(** [Array.prototype.join]. *)
Fixpoint join (sep : string) (parts : list string) : string :=
  match parts with
  | [] => ""
  | [x] => x
  | x :: rest => x ++ sep ++ join sep rest
  end.

Fixpoint repeat_char (n : nat) (c : ascii) : string :=
  match n with
  | O => ""
  | S k => String c (repeat_char k c)
  end.

(** [s.padStart(width, c)] for a one-character filler. *)
Definition padStart (width : nat) (c : ascii) (s : string) : string :=
  repeat_char (width - String.length s) c ++ s.

(** [n.toString()] and [n.toString(16)] of a natural number. *)
Definition toString10 (n : N) : string :=
  DecimalString.NilZero.string_of_uint (N.to_uint n).

Definition toString16 (n : N) : string :=
  HexadecimalString.NilZero.string_of_uint (N.to_hex_uint n).

(** [new TextEncoder().encode(s)]. *)
Definition TextEncoder_encode (s : string) : list byte := list_byte_of_string s.

(** Splitting at every occurrence of a character: [s.split(c)]. *)
Fixpoint split_on (c : ascii) (s : string) : list string :=
  match s with
  | EmptyString => [""]
  | String x rest =>
      if Ascii.eqb x c then "" :: split_on c rest
      else match split_on c rest with
           | piece :: pieces => String x piece :: pieces
           | [] => [String x ""]
           end
  end.

(** The part before the first occurrence of [c] and the part after it. *)
Fixpoint cut_at (c : ascii) (s : string) : string * option string :=
  match s with
  | EmptyString => ("", None)
  | String x rest =>
      if Ascii.eqb x c then ("", Some rest)
      else let '(before, after) := cut_at c rest in (String x before, after)
  end.

(** [s.replace(/c/g, d)] for a one-character pattern. *)
Fixpoint replace_all (c d : ascii) (s : string) : string :=
  match s with
  | EmptyString => EmptyString
  | String x rest =>
      String (if Ascii.eqb x c then d else x) (replace_all c d rest)
  end.

(** Every character of [s] satisfies [p]. *)
Fixpoint all_chars (p : ascii -> bool) (s : string) : bool :=
  match s with
  | EmptyString => true
  | String c rest => p c && all_chars p rest
  end.

End JsString.

(** ** JavaScript values, as [res.json()] hands them to the validators *)

Module Js.

(** A JavaScript number is a double: not-a-number, an infinity, or a finite
    rational.  The code below only ever asks for its [typeof]. *)
Inductive number : Type :=
  | NaN
  | Infinity (negative : bool)
  | Finite (q : Q).

#[local] Set Warnings "-register-all".

Inductive value : Type :=
  | VUndefined
  | VNull
  | VBoolean (b : bool)
  | VNumber (x : number)
  | VString (s : string)
  | VArray (items : list value)
  | VObject (props : list (string * value)).

(** The [typeof] operator. *)
Definition typeof (v : value) : string :=
  match v with
  | VUndefined => "undefined"
  | VNull => "object"
  | VBoolean _ => "boolean"
  | VNumber _ => "number"
  | VString _ => "string"
  | VArray _ => "object"
  | VObject _ => "object"
  end.

Fixpoint own_property (props : list (string * value)) (k : string) : value :=
  match props with
  | [] => VUndefined
  | (k', v) :: rest => if String.eqb k' k then v else own_property rest k
  end.

(** [input.k] for the property names the validators read: none of them is a
    property of an array, so the read of an array gives [undefined]. *)
Definition get (v : value) (k : string) : value :=
  match v with
  | VObject props => own_property props k
  | _ => VUndefined
  end.

(** Thrown values: [new Error(message)] of the source, and the exceptions
    the host raises on its own ([new URL], [fetch], [res.json()],
    [sessionStorage.setItem], [window.btoa]). *)
Inductive exn : Type :=
  | Error (message : string)
  | TypeError (what : string)
  | SyntaxError
  | QuotaExceededError
  | InvalidCharacterError.

End Js.

(** ** crypto.utils.ts: the encoder *)

Module Encoder.
Import JsString Js.

(** The alphabet of [window.btoa] (RFC 4648, table 1). *)
Definition btoa_alphabet : string :=
  "ABCDEFGHIJKLMNOPQRSTUVWXYZabcdefghijklmnopqrstuvwxyz0123456789+/".

(** The URL-safe alphabet (RFC 4648, table 2). *)
Definition base64url_alphabet : string :=
  "ABCDEFGHIJKLMNOPQRSTUVWXYZabcdefghijklmnopqrstuvwxyz0123456789-_".

Definition char_at (alphabet : string) (n : N) : ascii :=
  match String.get (N.to_nat n) alphabet with
  | Some c => c
  | None => "="%char
  end.

(** The four sextets of a group of three octets, and the shorter tails. *)
Definition sextet0 (a : N) : N := a / 4.
Definition sextet1 (a b : N) : N := (a mod 4) * 16 + b / 16.
Definition sextet2 (b c : N) : N := (b mod 16) * 4 + c / 64.
Definition sextet3 (c : N) : N := c mod 64.

(** [String.fromCharCode(bytes[i])]: the code unit of one octet. *)
Definition fromCharCode (b : byte) : N := Byte.to_N b.

(** The base64 encoding of RFC 4648, section 4, of a list of octets. *)
Fixpoint base64 (octets : list N) : string :=
  match octets with
  | [] => ""
  | [a] =>
      String (char_at btoa_alphabet (sextet0 a))
        (String (char_at btoa_alphabet (sextet1 a 0)) "==")
  | [a; b] =>
      String (char_at btoa_alphabet (sextet0 a))
        (String (char_at btoa_alphabet (sextet1 a b))
           (String (char_at btoa_alphabet (sextet2 b 0)) "="))
  | a :: b :: c :: rest =>
      String (char_at btoa_alphabet (sextet0 a))
        (String (char_at btoa_alphabet (sextet1 a b))
           (String (char_at btoa_alphabet (sextet2 b c))
              (String (char_at btoa_alphabet (sextet3 c)) (base64 rest))))
  end.

(** [window.btoa(binary)]: the binary string is given by its code units;
    one above 255 makes [btoa] throw, otherwise the code units are the
    octets to encode. *)
Definition btoa (binary : list N) : exn + string :=
  if forallb (fun unit => unit <? 256) binary
  then inr (base64 binary)
  else inl InvalidCharacterError.

(** [s.replace(/=+$/, '')]: the run of [=] that ends the string is dropped. *)
Fixpoint strip_trailing_eq (s : string) : string :=
  match s with
  | EmptyString => EmptyString
  | String x rest =>
      match strip_trailing_eq rest with
      | EmptyString => if Ascii.eqb x "=" then EmptyString else String x EmptyString
      | kept => String x kept
      end
  end.

(** [arrayBufferToBase64], lines 11-23: the loop builds the binary string
    one code unit per octet. *)
Definition arrayBufferToBase64 (buffer : list byte) : exn + string :=
  let binary := map fromCharCode buffer in
  match btoa binary with
  | inl thrown => inl thrown
  | inr text =>
      inr (strip_trailing_eq
             (replace_all "/" "_" (replace_all "+" "-" text)))
  end.

(** *** Reference encoder and decoder of RFC 4648, section 5 *)

(** The specification's words for the encoder are "base64url without
    padding": [base64url_nopad] is that encoding written directly, over the
    URL-safe alphabet and with no padding, to compare
    [arrayBufferToBase64] with. *)
Fixpoint base64url_nopad (octets : list N) : string :=
  match octets with
  | [] => ""
  | [a] =>
      String (char_at base64url_alphabet (sextet0 a))
        (String (char_at base64url_alphabet (sextet1 a 0)) "")
  | [a; b] =>
      String (char_at base64url_alphabet (sextet0 a))
        (String (char_at base64url_alphabet (sextet1 a b))
           (String (char_at base64url_alphabet (sextet2 b 0)) ""))
  | a :: b :: c :: rest =>
      String (char_at base64url_alphabet (sextet0 a))
        (String (char_at base64url_alphabet (sextet1 a b))
           (String (char_at base64url_alphabet (sextet2 b c))
              (String (char_at base64url_alphabet (sextet3 c))
                 (base64url_nopad rest))))
  end.

(** The place of a character in an alphabet. *)
Fixpoint index_of (c : ascii) (alphabet : string) : option N :=
  match alphabet with
  | EmptyString => None
  | String x rest =>
      if Ascii.eqb x c then Some 0
      else match index_of c rest with
           | Some n => Some (N.succ n)
           | None => None
           end
  end.

Definition sextet_of (c : ascii) : option N := index_of c base64url_alphabet.

Definition octet (n : N) : option byte := Byte.of_N n.

(** Modelled from the spec: the repository has no decoder, and the
    round-trip property of the specification, [decode(encode(bytes)) ==
    bytes], needs one.  [base64url_decode] is the base64url decoder for text
    without padding: four characters give three octets, a tail of three
    gives two, a tail of two gives one, a tail of one is not an encoding,
    and a character outside the URL-safe alphabet is refused. *)
Fixpoint base64url_decode (s : string) : option (list byte) :=
  match s with
  | EmptyString => Some []
  | String _ EmptyString => None
  | String c0 (String c1 EmptyString) =>
      s0 ← sextet_of c0; s1 ← sextet_of c1;
      a ← octet (s0 * 4 + s1 / 16);
      Some [a]
  | String c0 (String c1 (String c2 EmptyString)) =>
      s0 ← sextet_of c0; s1 ← sextet_of c1; s2 ← sextet_of c2;
      a ← octet (s0 * 4 + s1 / 16);
      b ← octet ((s1 mod 16) * 16 + s2 / 4);
      Some [a; b]
  | String c0 (String c1 (String c2 (String c3 rest))) =>
      s0 ← sextet_of c0; s1 ← sextet_of c1; s2 ← sextet_of c2;
      s3 ← sextet_of c3;
      a ← octet (s0 * 4 + s1 / 16);
      b ← octet ((s1 mod 16) * 16 + s2 / 4);
      c ← octet ((s2 mod 4) * 64 + s3);
      tail ← base64url_decode rest;
      Some (a :: b :: c :: tail)
  end.

End Encoder.

(** ** The browser: host functions, page state and the effect monad *)

Module Browser.
Import Js.

(** A parsed URL: everything up to and including the path, then the query
    and the fragment. *)
Record URL : Type := mkURL {
  url_special : bool;
  url_origin_path : string;
  url_query : option string;
  url_fragment : option string }.

Record Request : Type := mkRequest {
  req_url : string;
  req_method : string;
  req_headers : list (string * string);
  req_body : string }.

(** What the code reads of a [fetch] response: [res.ok] and the outcome of
    [res.json()], [None] when the body is not JSON. *)
Record Response : Type := mkResponse {
  res_ok : bool;
  res_json : option value }.

(** The pure functions of the host and of the libraries the code calls. *)
Class Host : Type := mkHost {
  subtle_digest_SHA256 : list byte -> list byte;
  URL_parse : string -> string -> option URL;
  JSON_stringify : value -> string;
  storage_has_room : gmap string string -> string -> string -> bool }.

Inductive Event : Type :=
  | EvSetItem (key val : string)
  | EvGetItem (key : string)
  | EvRemoveItem (key : string)
  | EvNavigate (href : string)
  | EvFetch (req : Request).

(** The state a call runs in: [sessionStorage], [window.location.search],
    the words [crypto.getRandomValues] is about to deliver, the server
    behind [fetch], and the log of effects so far (oldest first). *)
Record World : Type := mkWorld {
  sessionStorage : gmap string string;
  location_search : string;
  entropy : nat -> N;
  server : Request -> option Response;
  log : list Event }.

Definition emit (e : Event) (w : World) : World :=
  mkWorld (sessionStorage w) (location_search w) (entropy w) (server w)
    (log w ++ [e]).

Definition with_storage (st : gmap string string) (w : World) : World :=
  mkWorld st (location_search w) (entropy w) (server w) (log w).

Definition with_entropy (f : nat -> N) (w : World) : World :=
  mkWorld (sessionStorage w) (location_search w) f (server w) (log w).

(** Computations: a result or a thrown exception, and the world after. *)
Definition M (A : Type) : Type := World -> (exn + A) * World.

Definition ret {A} (a : A) : M A := fun w => (inr a, w).
Definition throw {A} (e : exn) : M A := fun w => (inl e, w).
Definition bind {A B} (m : M A) (k : A -> M B) : M B :=
  fun w =>
    match m w with
    | (inl e, w') => (inl e, w')
    | (inr a, w') => k a w'
    end.

(** A call that returns or throws without touching the world. *)
Definition lift {A} (r : exn + A) : M A := fun w => (r, w).

Declare Scope js_scope.
Delimit Scope js_scope with js.
Notation "'let*' x ':=' m 'in' k" := (bind m (fun x => k))
  (at level 10, x pattern, m at level 100, k at level 200) : js_scope.
Notation "m ';;' k" := (bind m (fun _ => k))
  (at level 100, k at level 200, right associativity) : js_scope.

Local Open Scope js_scope.

(** [sessionStorage.setItem(k, v)]; the host refuses the write with a
    [QuotaExceededError] when the store has no room for it. *)
Definition setItem `{Host} (k v : string) : M unit :=
  fun w =>
    if storage_has_room (sessionStorage w) k v
    then (inr tt, emit (EvSetItem k v) (with_storage (<[k := v]> (sessionStorage w)) w))
    else (inl QuotaExceededError, w).

(** [sessionStorage.getItem(k)]: the value, or [null]. *)
Definition getItem (k : string) : M (option string) :=
  fun w => (inr (sessionStorage w !! k), emit (EvGetItem k) w).

(** [sessionStorage.removeItem(k)]. *)
Definition removeItem (k : string) : M unit :=
  fun w =>
    (inr tt, emit (EvRemoveItem k) (with_storage (delete k (sessionStorage w)) w)).

(** [window.location.href = href]. *)
Definition navigate (href : string) : M unit :=
  fun w => (inr tt, emit (EvNavigate href) w).

(** [window.location.search]. *)
Definition read_location_search : M string :=
  fun w => (inr (location_search w), w).

(** [fetch(url, init)]: the request reaches the server, which answers or
    not; no answer makes [fetch] reject with a [TypeError]. *)
Definition fetch (req : Request) : M Response :=
  fun w =>
    match server w req with
    | Some res => (inr res, emit (EvFetch req) w)
    | None => (inl (TypeError "Failed to fetch"), emit (EvFetch req) w)
    end.

(** [res.json()]. *)
Definition json (res : Response) : M value :=
  match res_json res with
  | Some v => ret v
  | None => throw SyntaxError
  end.

(** [crypto.getRandomValues(new Uint32Array(n))]: the next [n] words of the
    source, each stored modulo [2^32]. *)
Definition getRandomValues (n : nat) : M (list N) :=
  fun w =>
    (inr (map (fun i => entropy w i mod 2 ^ 32) (seq 0 n)),
     with_entropy (fun i => entropy w (n + i)%nat) w).

(** [new URL(path, base)]; a [TypeError] when the pair does not parse. *)
Definition new_URL `{Host} (path base : string) : M URL :=
  match URL_parse path base with
  | Some u => ret u
  | None => throw (TypeError "Invalid URL")
  end.

End Browser.

(** ** crypto.utils.ts: nonces and the challenge *)

Module Crypto.
Import Js Browser JsString Encoder.
Local Open Scope js_scope.

(** [sha256], lines 1-2. *)
Definition sha256 `{Host} (value : string) : list byte :=
  subtle_digest_SHA256 (TextEncoder_encode value).

(** [Uint32Array.prototype.toString]: the elements in decimal, joined by
    commas. *)
Definition Uint32Array_toString (words : list N) : string :=
  join "," (map toString10 words).

(** [generateNonce], lines 4-9. *)
Definition generateNonce `{Host} : M string :=
  let* words := getRandomValues 4 in
  let hash := sha256 (Uint32Array_toString words) in
  let hashArray := map Byte.to_N hash in
  ret (join "" (map (fun b => padStart 2 "0" (toString16 b)) hashArray)).

Record Challenge : Type := mkChallenge {
  state : string;
  codeVerifier : string;
  codeChallenge : string }.

(** [getChallenge], lines 42-55.  [Promise.all] receives the two promises in
    the order the calls are written, and each call has drawn its random
    words before it first suspends. *)
Definition getChallenge `{Host} : M Challenge :=
  let* state := generateNonce in
  let* codeVerifier := generateNonce in
  let codeChallenge := sha256 codeVerifier in
  let* encoded := lift (arrayBufferToBase64 codeChallenge) in
  ret {| state := state;
         codeVerifier := codeVerifier;
         codeChallenge := encoded |}.

End Crypto.

(** ** The URL standard: [URLSearchParams] and the [search] setter *)

Module Url.
Import Browser JsString.

Definition code_of (c : ascii) : N := N_of_ascii c.

Definition is_digit (n : N) : bool := (48 <=? n) && (n <=? 57).
Definition is_upper (n : N) : bool := (65 <=? n) && (n <=? 90).
Definition is_lower (n : N) : bool := (97 <=? n) && (n <=? 122).

(** Bytes that the application/x-www-form-urlencoded serialiser leaves as
    they are: ASCII alphanumerics and [* - . _]. *)
Definition urlencoded_unreserved (c : ascii) : bool :=
  let n := code_of c in
  is_digit n || is_upper n || is_lower n
  || (n =? 42) || (n =? 45) || (n =? 46) || (n =? 95).

Definition upper_hex_digit (n : N) : ascii :=
  match String.get (N.to_nat n) "0123456789ABCDEF" with
  | Some c => c
  | None => "0"%char
  end.

(** Percent-encoding of one byte: [%] and two upper-case hex digits. *)
Definition percent_encode_byte (c : ascii) : string :=
  String "%" (String (upper_hex_digit (code_of c / 16))
                (String (upper_hex_digit (code_of c mod 16)) "")).

Definition urlencode_byte (c : ascii) : string :=
  if Ascii.eqb c " " then "+"
  else if urlencoded_unreserved c then String c ""
  else percent_encode_byte c.

Fixpoint urlencode (s : string) : string :=
  match s with
  | EmptyString => ""
  | String c rest => urlencode_byte c ++ urlencode rest
  end.

(** [new URLSearchParams(record).toString()]: the pairs in the order of the
    record's keys, each as [name=value], joined by [&]. *)
Definition URLSearchParams_toString (pairs : list (string * string)) : string :=
  join "&" (map (fun '(k, v) => urlencode k ++ "=" ++ urlencode v) pairs).

Definition hex_value (c : ascii) : option N :=
  let n := code_of c in
  if is_digit n then Some (n - 48)
  else if (65 <=? n) && (n <=? 70) then Some (n - 55)
  else if (97 <=? n) && (n <=? 102) then Some (n - 87)
  else None.

(** Percent-decoding: [%] followed by two hex digits is one byte, any other
    byte stands for itself. *)
Fixpoint percent_decode (s : string) : string :=
  match s with
  | EmptyString => ""
  | String c rest =>
      let verbatim := String c (percent_decode rest) in
      if Ascii.eqb c "%" then
        match rest with
        | String h (String l rest') =>
            match hex_value h, hex_value l with
            | Some hi, Some lo =>
                String (ascii_of_N (hi * 16 + lo)) (percent_decode rest')
            | _, _ => verbatim
            end
        | _ => verbatim
        end
      else verbatim
  end.

Definition between (lo hi n : N) : bool := (lo <=? n) && (n <=? hi).

(** U+FFFD, the replacement character, in UTF-8, before [tail]. *)
Definition replaced (tail : string) : string :=
  String (ascii_of_N 239) (String (ascii_of_N 191) (String (ascii_of_N 189) tail)).

(** "UTF-8 decode without BOM" of the Encoding standard, on the bytes of a
    string: a well-formed sequence stands for its code point and is kept as
    it is; a byte that cannot start a sequence, and a sequence cut short by
    the end of the input or by a byte out of range, become U+FFFD, and the
    byte that cut the sequence short is read again as the start of the
    next one. *)
Fixpoint utf8_decode (s : string) : string :=
  match s with
  | EmptyString => ""
  | String b rest =>
      let n := code_of b in
      if n <=? 127 then String b (utf8_decode rest)
      else if between 194 223 n then
        match rest with
        | String c1 rest1 =>
            if between 128 191 (code_of c1)
            then String b (String c1 (utf8_decode rest1))
            else replaced (utf8_decode rest)
        | EmptyString => replaced ""
        end
      else if between 224 239 n then
        let lower := if n =? 224 then 160 else 128 in
        let upper := if n =? 237 then 159 else 191 in
        match rest with
        | String c1 rest1 =>
            if between lower upper (code_of c1) then
              match rest1 with
              | String c2 rest2 =>
                  if between 128 191 (code_of c2)
                  then String b (String c1 (String c2 (utf8_decode rest2)))
                  else replaced (utf8_decode rest1)
              | EmptyString => replaced ""
              end
            else replaced (utf8_decode rest)
        | EmptyString => replaced ""
        end
      else if between 240 244 n then
        let lower := if n =? 240 then 144 else 128 in
        let upper := if n =? 244 then 143 else 191 in
        match rest with
        | String c1 rest1 =>
            if between lower upper (code_of c1) then
              match rest1 with
              | String c2 rest2 =>
                  if between 128 191 (code_of c2) then
                    match rest2 with
                    | String c3 rest3 =>
                        if between 128 191 (code_of c3)
                        then String b (String c1 (String c2 (String c3
                                                      (utf8_decode rest3))))
                        else replaced (utf8_decode rest2)
                    | EmptyString => replaced ""
                    end
                  else replaced (utf8_decode rest1)
              | EmptyString => replaced ""
              end
            else replaced (utf8_decode rest)
        | EmptyString => replaced ""
        end
      else replaced (utf8_decode rest)
  end.

(** The decoding of a name or a value by the parser: [+] is a space, the
    percent escapes are bytes, and the bytes are read as UTF-8. *)
Definition urldecode (s : string) : string :=
  utf8_decode (percent_decode (replace_all "+" " " s)).

Definition strip_question_mark (s : string) : string :=
  match s with
  | String "?" rest => rest
  | _ => s
  end.

(** One piece: the name before the first [=], the value after it, or the
    empty value when there is no [=]. *)
Definition parse_pair (piece : string) : string * string :=
  match cut_at "=" piece with
  | (name, Some value) => (urldecode name, urldecode value)
  | (name, None) => (urldecode name, "")
  end.

Definition nonempty (s : string) : bool :=
  match s with
  | EmptyString => false
  | String _ _ => true
  end.

(** The application/x-www-form-urlencoded parser of the URL standard: the
    input is cut at every [&], empty pieces are dropped, each piece is cut
    at its first [=], and the name and the value are decoded: [+] to a
    space, percent escapes to bytes, and the bytes read as UTF-8. *)
Definition urlencoded_parse (input : string) : list (string * string) :=
  map parse_pair (List.filter nonempty (split_on "&" input)).

(** [new URLSearchParams(init)] for a string [init]. *)
Definition URLSearchParams_of_string (init : string) : list (string * string) :=
  urlencoded_parse (strip_question_mark init).

(** [params.get(name)]: the first value of [name], or [null]. *)
Fixpoint URLSearchParams_get (params : list (string * string)) (name : string)
  : option string :=
  match params with
  | [] => None
  | (k, v) :: rest =>
      if String.eqb k name then Some v else URLSearchParams_get rest name
  end.

(** The query percent-encode set (with ['] added for special schemes), and
    ASCII tab and newline, which the URL parser drops from its input. *)
Definition in_query_set (special : bool) (c : ascii) : bool :=
  let n := code_of c in
  (n <=? 31) || (126 <? n) || (n =? 32) || (n =? 34) || (n =? 35)
  || (n =? 60) || (n =? 62) || (special && (n =? 39)).

Definition is_tab_or_newline (c : ascii) : bool :=
  let n := code_of c in (n =? 9) || (n =? 10) || (n =? 13).

Fixpoint query_state (special : bool) (input : string) : string :=
  match input with
  | EmptyString => ""
  | String c rest =>
      if is_tab_or_newline c then query_state special rest
      else if in_query_set special c
           then percent_encode_byte c ++ query_state special rest
           else String c (query_state special rest)
  end.

(** [url.search = value]. *)
Definition set_search (u : URL) (value : string) : URL :=
  match value with
  | EmptyString =>
      mkURL (url_special u) (url_origin_path u) None (url_fragment u)
  | _ =>
      mkURL (url_special u) (url_origin_path u)
        (Some (query_state (url_special u) (strip_question_mark value)))
        (url_fragment u)
  end.

(** [url.toString()]: the URL serialiser. *)
Definition URL_toString (u : URL) : string :=
  url_origin_path u
  ++ match url_query u with Some q => "?" ++ q | None => "" end
  ++ match url_fragment u with Some f => "#" ++ f | None => "" end.

End Url.

(** ** schemas.ts, zod.utils.ts and the hand-written validator *)

Module Schemas.
Import Js Browser JsString.
Local Open Scope js_scope.

(** The part of zod the schema is written in: [z.string()], [z.number()],
    [z.enum([...])], and [z.object] over them. *)
Inductive ZodType : Type :=
  | z_string
  | z_number
  | z_enum (values : list string).

Definition ZodObject : Type := list (string * ZodType).

(** [authSchema], schemas.ts lines 3-9. *)
Definition authSchema : ZodObject :=
  [ ("access_token", z_string);
    ("expires_in", z_number);
    ("id_token", z_string);
    ("refresh_token", z_string);
    ("token_type", z_enum ["Bearer"]) ].

Record ZodIssue : Type := mkIssue {
  issue_path : list string;
  issue_message : string }.

(** The wording of zod's messages is the library's own. *)
Class ZodMessages : Type := {
  zod_expected_object : value -> string;
  zod_invalid : ZodType -> value -> string }.

Fixpoint mem_string (s : string) (l : list string) : bool :=
  match l with
  | [] => false
  | x :: rest => String.eqb x s || mem_string s rest
  end.

(** zod accepts a value for a leaf type without changing it: no coercion;
    [z.number()] refuses [NaN]. *)
Definition zod_accepts (t : ZodType) (v : value) : bool :=
  match t, v with
  | z_string, VString _ => true
  | z_number, VNumber NaN => false
  | z_number, VNumber _ => true
  | z_enum values, VString s => mem_string s values
  | _, _ => false
  end.

Fixpoint zod_object_issues `{ZodMessages} (shape : ZodObject) (input : value)
  : list ZodIssue :=
  match shape with
  | [] => []
  | (k, t) :: rest =>
      (if zod_accepts t (get input k) then []
       else [mkIssue [k] (zod_invalid t (get input k))])
      ++ zod_object_issues rest input
  end.

(** [schema.safeParse(input)] for a [z.object]: the issues, or the data,
    which has the keys of the schema and no other. *)
Definition safeParse `{ZodMessages} (shape : ZodObject) (input : value)
  : list ZodIssue + value :=
  match input with
  | VObject _ =>
      match zod_object_issues shape input with
      | [] => inr (VObject (map (fun '(k, _) => (k, get input k)) shape))
      | issues => inl issues
      end
  | _ => inl [mkIssue [] (zod_expected_object input)]
  end.

(** [flattenIssues], zod.utils.ts line 3. *)
Definition flattenIssues (issues : list ZodIssue) : string :=
  join ", "
    (map (fun '(index, issue) =>
            toString10 (N.of_nat index + 1) ++ ". "
            ++ join "." (issue_path issue) ++ ": " ++ issue_message issue)
       (combine (seq 0 (List.length issues)) issues)).

Definition is_string (v : value) : bool := String.eqb (typeof v) "string".
Definition is_number (v : value) : bool := String.eqb (typeof v) "number".

(** [v === 'Bearer'] *)
Definition strict_eq_string (v : value) (s : string) : bool :=
  match v with
  | VString s' => String.eqb s' s
  | _ => false
  end.

(** [validateAuth], the hand-written validator. *)
Definition validateAuth (input : value) : exn + value :=
  if negb (String.eqb (typeof input) "object")
     || match input with VNull => true | _ => false end
  then inl (Error "Input must be a non-null object")
  else if negb (is_string (get input "access_token"))
  then inl (Error "access_token must be a string")
  else if negb (is_number (get input "expires_in"))
  then inl (Error "expires_in must be a number")
  else if negb (is_string (get input "id_token"))
  then inl (Error "id_token must be a string")
  else if negb (is_string (get input "refresh_token"))
  then inl (Error "refresh_token must be a string")
  else if negb (strict_eq_string (get input "token_type") "Bearer")
  then inl (Error "token_type must be 'Bearer'")
  else inr input.

End Schemas.

(** ** The PKCE flow: redirects, token exchange and the callback *)

Module Pkce.
Import Js Browser JsString Encoder Crypto Url Schemas.
Local Open Scope js_scope.

Record RedirectToLogin : Type := mkRedirectToLogin {
  login_idpUrl : string;
  login_clientId : string;
  login_redirectUri : string;
  login_path : option string;
  login_scope : option string }.

(** The record handed to [new URLSearchParams] at lines 81-89, in the order
    of its keys. *)
Definition login_query (scope clientId redirectUri : string) (ch : Challenge)
  : list (string * string) :=
  [ ("response_type", "code");
    ("scope", scope);
    ("state", state ch);
    ("client_id", clientId);
    ("code_challenge", codeChallenge ch);
    ("code_challenge_method", "S256");
    ("redirect_uri", redirectUri) ].

(** [redirectToLogin], lines 65-92. *)
Definition redirectToLogin `{Host} (params : RedirectToLogin) : M unit :=
  let idpUrl := login_idpUrl params in
  let clientId := login_clientId params in
  let redirectUri := login_redirectUri params in
  let path := default "/login" (login_path params) in
  let scope := default "openid" (login_scope params) in
  let* ch := getChallenge in
  setItem (state ch) (codeVerifier ch);;
  let* url := new_URL path idpUrl in
  let url :=
    set_search url
      (URLSearchParams_toString (login_query scope clientId redirectUri ch)) in
  navigate (URL_toString url).

Record RedirectToLogout : Type := mkRedirectToLogout {
  logout_idpUrl : string;
  logout_path : option string;
  logout_clientId : string;
  logout_logoutUri : string }.

(** [redirectToLogout], lines 291-299. *)
Definition redirectToLogout (params : RedirectToLogout) : M unit :=
  let idpUrl := logout_idpUrl params in
  let path := default "/logout" (logout_path params) in
  let clientId := logout_clientId params in
  let logoutUri := logout_logoutUri params in
  let logoutUrl :=
    idpUrl ++ path ++ "?client_id=" ++ clientId ++ "&logout_uri=" ++ logoutUri in
  navigate logoutUrl.

Record ExchangeCode : Type := mkExchangeCode {
  xc_code : string;
  xc_codeVerifier : string;
  xc_idpUrl : string;
  xc_clientId : string;
  xc_redirectUri : string }.

(** The two revisions of the flow under [src/] differ in one step only, the
    validation of the token response: [authSchema.safeParse] with
    [flattenIssues] (lines 129-135), or [validateAuth] (line 368). *)
Inductive Revision : Type :=
  | WithAuthSchema
  | WithValidateAuth.

Definition validate_response `{ZodMessages} (rev : Revision) (rawData : value)
  : M value :=
  match rev with
  | WithAuthSchema =>
      match safeParse authSchema rawData with
      | inl issues =>
          throw (Error ("Returned auth data does not conform to schema: "
                        ++ flattenIssues issues))
      | inr data => ret data
      end
  | WithValidateAuth =>
      match validateAuth rawData with
      | inl e => throw e
      | inr auth => ret auth
      end
  end.

(** The arguments of [fetch] at lines 109-121; [Object.entries] lists the
    keys in the order they are written. *)
Definition token_request (req : ExchangeCode) : Request :=
  {| req_url := xc_idpUrl req ++ "/oauth2/token";
     req_method := "POST";
     req_headers := [("content-type", "application/x-www-form-urlencoded")];
     req_body :=
       join "&"
         (map (fun '(k, v) => k ++ "=" ++ v)
            [ ("grant_type", "authorization_code");
              ("client_id", xc_clientId req);
              ("code", xc_code req);
              ("code_verifier", xc_codeVerifier req);
              ("redirect_uri", xc_redirectUri req) ]) |}.

(** [exchangeCode], lines 102-136 and 341-369. *)
Definition exchangeCode `{Host} `{ZodMessages} (rev : Revision)
    (req : ExchangeCode) : M value :=
  let* res := fetch (token_request req) in
  let* rawData := json res in
  if negb (res_ok res)
  then throw (Error ("Error exchanging code: " ++ JSON_stringify rawData))
  else validate_response rev rawData.

Record HandleCallback : Type := mkHandleCallback {
  cb_idpUrl : string;
  cb_clientId : string;
  cb_redirectUri : string }.

(** [!v] for a value that is a string or [null]. *)
Definition falsy (v : option string) : bool :=
  match v with
  | None => true
  | Some s => negb (nonempty s)
  end.

(** [handleCallback], lines 144-171.  Past the guard of line 153 both
    [state] and [code] are strings. *)
Definition handleCallback `{Host} `{ZodMessages} (rev : Revision)
    (params : HandleCallback) : M value :=
  let* search := read_location_search in
  let queryString := URLSearchParams_of_string search in
  let code := URLSearchParams_get queryString "code" in
  let state := URLSearchParams_get queryString "state" in
  match state, code with
  | Some state, Some code =>
      if falsy (Some state) || falsy (Some code)
      then throw (Error "Missing state or code")
      else
        let* codeVerifier := getItem state in
        removeItem state;;
        match codeVerifier with
        | Some codeVerifier =>
            if falsy (Some codeVerifier)
            then throw (Error "Missing state")
            else
              exchangeCode rev
                {| xc_code := code;
                   xc_codeVerifier := codeVerifier;
                   xc_clientId := cb_clientId params;
                   xc_idpUrl := cb_idpUrl params;
                   xc_redirectUri := cb_redirectUri params |}
        | None => throw (Error "Missing state")
        end
  | _, _ => throw (Error "Missing state or code")
  end.

End Pkce.

(** ** Descriptions the properties are stated with

    Nothing here is code of the repository: these are the character
    classes, the worlds after a step, the outcomes and the names of errors
    that the statements below speak of. *)

Module Views.
Import Js Browser JsString Encoder Crypto Url Schemas Pkce.

(** *** Characters *)

(** None of [+], [/] and [=]. *)
Definition plain (c : ascii) : bool :=
  negb (Ascii.eqb c "+") && negb (Ascii.eqb c "/") && negb (Ascii.eqb c "=").

(** The two replacements of [arrayBufferToBase64]. *)
Definition to_url (s : string) : string :=
  replace_all "/" "_" (replace_all "+" "-" s).

(** What the serialiser of [URLSearchParams] can write: unreserved bytes,
    [+] and [%]. *)
Definition urlencoded_char (c : ascii) : bool :=
  urlencoded_unreserved c || Ascii.eqb c "+" || Ascii.eqb c "%".

Definition is_not (c x : ascii) : bool := negb (Ascii.eqb x c).

(** One [name=value] piece of a serialised parameter list. *)
Definition encode_pair (p : string * string) : string :=
  let '(k, v) := p in urlencode k ++ "=" ++ urlencode v.

(** Characters the [search] setter leaves as they are. *)
Definition query_plain (c : ascii) : bool :=
  negb (is_tab_or_newline c) && negb (in_query_set true c).

(** *** The challenge *)

(** The nonce as a function of the words drawn, the four words a call draws
    from position [from] of the source, and the challenge a world gives. *)
Definition nonce_of `{Host} (words : list N) : string :=
  join "" (map (fun b => padStart 2 "0" (toString16 b))
             (map Byte.to_N (sha256 (Uint32Array_toString words)))).

Definition drawn_words (w : World) (from : nat) : list N :=
  map (fun i => entropy w (from + i)%nat mod 2 ^ 32) (seq 0 4).

Definition challenge_of `{Host} (w : World) : Challenge :=
  {| state := nonce_of (drawn_words w 0);
     codeVerifier := nonce_of (drawn_words w 4);
     codeChallenge :=
       base64url_nopad (map fromCharCode (sha256 (nonce_of (drawn_words w 4)))) |}.

(** *** redirectToLogin *)

(** The URL [redirectToLogin] assigns to [window.location.href] when [u] is
    what [new URL(path, idpUrl)] gave. *)
Definition login_href (params : RedirectToLogin) (ch : Challenge) (u : URL)
  : string :=
  URL_toString
    (set_search u
       (URLSearchParams_toString
          (login_query (default "openid" (login_scope params))
             (login_clientId params) (login_redirectUri params) ch))).

(** The world after the challenge is drawn and the verifier is stored. *)
Definition after_persist `{Host} (w : World) : World :=
  let ch := challenge_of w in
  emit (EvSetItem (state ch) (codeVerifier ch))
    (with_storage (<[state ch := codeVerifier ch]> (sessionStorage w))
       (with_entropy (fun i => entropy w (4 + (4 + i))%nat) w)).

(** The query of the authorization request, spelled out. *)
Definition login_query_string (scope clientId redirectUri : string)
    (ch : Challenge) : string :=
  "response_type=code&scope=" ++ urlencode scope
  ++ "&state=" ++ state ch
  ++ "&client_id=" ++ urlencode clientId
  ++ "&code_challenge=" ++ codeChallenge ch
  ++ "&code_challenge_method=S256&redirect_uri=" ++ urlencode redirectUri.

(** *** Validation *)

Definition is_object (v : value) : bool :=
  String.eqb (typeof v) "object"
  && negb (match v with VNull => true | _ => false end).

Definition is_nan (v : value) : bool :=
  match v with
  | VNumber NaN => true
  | _ => false
  end.

(** The six guards of [validateAuth], read off the code. *)
Definition rejects (raw : value) : bool :=
  negb (is_object raw)
  || negb (is_string (get raw "access_token"))
  || negb (is_number (get raw "expires_in"))
  || negb (is_string (get raw "id_token"))
  || negb (is_string (get raw "refresh_token"))
  || negb (strict_eq_string (get raw "token_type") "Bearer").

(** The same in words: [raw] is not a non-null object, or a field has the
    wrong type, or [token_type] is not the string ["Bearer"]. *)
Definition Rejected (raw : value) : Prop :=
  typeof raw <> "object" \/ raw = VNull
  \/ typeof (get raw "access_token") <> "string"
  \/ typeof (get raw "expires_in") <> "number"
  \/ typeof (get raw "id_token") <> "string"
  \/ typeof (get raw "refresh_token") <> "string"
  \/ get raw "token_type" <> VString "Bearer".

(** The condition as the specification words it: a [token_type] counts
    only when it is present. *)
Definition RejectedAsSpecified (raw : value) : Prop :=
  typeof raw <> "object" \/ raw = VNull
  \/ typeof (get raw "access_token") <> "string"
  \/ typeof (get raw "expires_in") <> "number"
  \/ typeof (get raw "id_token") <> "string"
  \/ typeof (get raw "refresh_token") <> "string"
  \/ (get raw "token_type" <> VUndefined
      /\ get raw "token_type" <> VString "Bearer").

(** The errors [validateAuth] can throw. *)
Definition SchemaError (e : exn) : Prop :=
  In e [ Error "Input must be a non-null object";
         Error "access_token must be a string";
         Error "expires_in must be a number";
         Error "id_token must be a string";
         Error "refresh_token must be a string";
         Error "token_type must be 'Bearer'" ].

(** A token response of the documented shape, but without [token_type]. *)
Definition auth_without_token_type : value :=
  VObject [ ("access_token", VString "a");
            ("expires_in", VNumber (Finite 60));
            ("id_token", VString "b");
            ("refresh_token", VString "c") ].

(** A token response of the documented shape whose [expires_in] is [NaN]. *)
Definition auth_with_nan : value :=
  VObject [ ("access_token", VString "a");
            ("expires_in", VNumber NaN);
            ("id_token", VString "b");
            ("refresh_token", VString "c");
            ("token_type", VString "Bearer") ].

(** The validation step of either revision, as a function of the data. *)
Definition validated `{ZodMessages} (rev : Revision) (rawData : value)
  : exn + value :=
  match rev with
  | WithAuthSchema =>
      match safeParse authSchema rawData with
      | inl issues =>
          inl (Error ("Returned auth data does not conform to schema: "
                      ++ flattenIssues issues))
      | inr data => inr data
      end
  | WithValidateAuth => validateAuth rawData
  end.

(** *** exchangeCode and handleCallback *)

(** What [exchangeCode] makes of the server's answer. *)
Definition exchange_outcome `{Host} `{ZodMessages} (rev : Revision)
    (answer : option Response) : exn + value :=
  match answer with
  | None => inl (TypeError "Failed to fetch")
  | Some res =>
      match res_json res with
      | None => inl SyntaxError
      | Some rawData =>
          if res_ok res then validated rev rawData
          else inl (Error ("Error exchanging code: " ++ JSON_stringify rawData))
      end
  end.

(** The [code] and [state] of the page: [queryString.get(..)]. *)
Definition callback_code (w : World) : option string :=
  URLSearchParams_get (URLSearchParams_of_string (location_search w)) "code".

Definition callback_state (w : World) : option string :=
  URLSearchParams_get (URLSearchParams_of_string (location_search w)) "state".

(** The three errors of [handleCallback] and [exchangeCode], under the
    names the specification gives them. *)
Definition MissingParameterError : exn := Error "Missing state or code".
Definition MissingVerifierError : exn := Error "Missing state".
Definition TransportError `{Host} (body : value) : exn :=
  Error ("Error exchanging code: " ++ JSON_stringify body).

(** The world once the verifier under [state] has been read and removed. *)
Definition after_consume (state : string) (w : World) : World :=
  emit (EvRemoveItem state)
    (with_storage (delete state (sessionStorage w)) (emit (EvGetItem state) w)).

(** The argument [handleCallback] hands to [exchangeCode]. *)
Definition exchange_request (params : HandleCallback) (code codeVerifier : string)
  : ExchangeCode :=
  {| xc_code := code;
     xc_codeVerifier := codeVerifier;
     xc_clientId := cb_clientId params;
     xc_idpUrl := cb_idpUrl params;
     xc_redirectUri := cb_redirectUri params |}.

End Views.

(** ** Sample hosts, pages and servers, to run the flow on *)

Module Sample.
Import Js Browser JsString Encoder Crypto Url Schemas Pkce.

(** A stand-in digest: thirty-two octets computed from the input's length
    and its first octets.  It is not SHA-256; the flow never looks inside. *)
Definition sample_digest (input : list byte) : list byte :=
  let n := N.of_nat (List.length input) in
  map (fun i =>
         match Byte.of_N ((n * 7 + N.of_nat i * 13
                           + Byte.to_N (nth i input x00)) mod 256) with
         | Some b => b
         | None => x00
         end)
      (seq 0 32).

(** A stand-in URL parser: the base, then the path, no query, no fragment. *)
Definition sample_URL_parse (path base : string) : option URL :=
  match base with
  | EmptyString => None
  | _ => Some (mkURL true (base ++ path) None None)
  end.

Definition sample_stringify (v : value) : string :=
  match v with
  | VString s => String (ascii_of_nat 34) (s ++ String (ascii_of_nat 34) "")
  | VNull => "null"
  | _ => "{}"
  end.

#[export] Instance sample_host : Host :=
  {| subtle_digest_SHA256 := sample_digest;
     URL_parse := sample_URL_parse;
     JSON_stringify := sample_stringify;
     storage_has_room := fun _ _ _ => true |}.

#[export] Instance sample_messages : ZodMessages :=
  {| zod_expected_object := fun _ => "Expected object";
     zod_invalid := fun _ _ => "Invalid" |}.

Definition sample_auth : value :=
  VObject [ ("access_token", VString "a");
            ("expires_in", VNumber (Finite 60));
            ("id_token", VString "b");
            ("refresh_token", VString "c");
            ("token_type", VString "Bearer") ].

(** Servers: one that answers 200 with a token response, one that answers
    400 with a JSON error, one that answers 400 with a body that is not
    JSON. *)
Definition server_ok (_ : Request) : option Response :=
  Some (mkResponse true (Some sample_auth)).
Definition server_400_json (_ : Request) : option Response :=
  Some (mkResponse false (Some (VString "invalid_grant"))).
Definition server_400_text (_ : Request) : option Response :=
  Some (mkResponse false None).

Definition sample_entropy (i : nat) : N := N.of_nat i * 2654435761 + 12345.

Definition page (search : string) (store : gmap string string)
    (srv : Request -> option Response) : World :=
  mkWorld store search sample_entropy srv [].

Definition sample_login : RedirectToLogin :=
  mkRedirectToLogin "https://idp.example" "client 1" "https://app.example/cb?x=1"
    None None.

Definition sample_callback : HandleCallback :=
  mkHandleCallback "https://idp.example" "client1" "https://app.example/cb".

End Sample.

(** ** Further descriptions: alphabets, safe values, events *)

Module Shapes.
Import Js Browser JsString Encoder Crypto Url Schemas Pkce Views.

(** [c] is a character of [alphabet]. *)
Definition in_alphabet (alphabet : string) (c : ascii) : bool :=
  match index_of c alphabet with
  | Some _ => true
  | None => false
  end.

(** A lower-case hexadecimal digit. *)
Definition is_lower_hex (c : ascii) : bool := in_alphabet "0123456789abcdef" c.

(** The two digits [generateNonce] writes for one octet of the digest. *)
Definition hex_octet (b : byte) : string :=
  padStart 2 "0" (toString16 (Byte.to_N b)).

(** The octet two hexadecimal digits stand for. *)
Definition unhex_octet (h l : ascii) : option byte :=
  match hex_value h, hex_value l with
  | Some hi, Some lo => Byte.of_N (hi * 16 + lo)
  | _, _ => None
  end.

(** Reading a text of hexadecimal digits back, two digits per octet: the
    inverse of the loop of [generateNonce], to state that the loop loses
    nothing. *)
Fixpoint unhex (s : string) : option (list byte) :=
  match s with
  | EmptyString => Some []
  | String h (String l rest) =>
      match unhex_octet h l, unhex rest with
      | Some b, Some bs => Some (b :: bs)
      | _, _ => None
      end
  | String _ EmptyString => None
  end.

(** A value that reads back as itself from a form-urlencoded text: it holds
    none of [&], [+] and [%].  A name must not hold [=] either. *)
Definition form_safe (c : ascii) : bool :=
  is_not "&" c && is_not "+" c && is_not "%" c.

Definition name_safe (c : ascii) : bool := form_safe c && is_not "=" c.



(** The UTF-8 of a code point and of a list of code points, as the
    Encoding standard writes them, to say which texts are the UTF-8 of a
    string: those of lists of scalar values, the code points that are no
    surrogates. *)
Definition utf8_encode_point (p : N) : string :=
  if p <=? 127 then String (ascii_of_N p) ""
  else if p <=? 2047 then
    String (ascii_of_N (192 + p / 64)) (String (ascii_of_N (128 + p mod 64)) "")
  else if p <=? 65535 then
    String (ascii_of_N (224 + p / 4096))
      (String (ascii_of_N (128 + (p / 64) mod 64))
         (String (ascii_of_N (128 + p mod 64)) ""))
  else
    String (ascii_of_N (240 + p / 262144))
      (String (ascii_of_N (128 + (p / 4096) mod 64))
         (String (ascii_of_N (128 + (p / 64) mod 64))
            (String (ascii_of_N (128 + p mod 64)) ""))).

Fixpoint utf8_encode (points : list N) : string :=
  match points with
  | [] => ""
  | p :: rest => utf8_encode_point p ++ utf8_encode rest
  end.

Definition is_scalar_value (p : N) : bool :=
  (p <? 55296) || ((57344 <=? p) && (p <=? 1114111)).

(** [`${k}=${v}`] *)
Definition verbatim_pair (p : string * string) : string :=
  let '(k, v) := p in k ++ "=" ++ v.

(** The five fields of a token response. *)
Definition auth_fields : list string :=
  ["access_token"; "expires_in"; "id_token"; "refresh_token"; "token_type"].

(** An input of the documented shape: it has no field but the five. *)
Definition documented_shape (raw : value) : Prop :=
  forall k, ~ In k auth_fields -> get raw k = VUndefined.

(** The events of a call: what the log gained. *)
Definition events_since (before after : World) : list Event :=
  drop (List.length (log before)) (log after).

Definition is_storage_read (e : Event) : bool :=
  match e with
  | EvGetItem _ | EvRemoveItem _ => true
  | _ => false
  end.

Definition is_fetch (e : Event) : bool :=
  match e with
  | EvFetch _ => true
  | _ => false
  end.

Definition is_write_or_navigation (e : Event) : bool :=
  match e with
  | EvSetItem _ _ | EvNavigate _ => true
  | _ => false
  end.

End Shapes.

(** ** More sample hosts and calls *)

Module MoreSamples.
Import Js Browser JsString Encoder Crypto Url Schemas Pkce Sample.

(** A host whose store is full. *)
Definition crowded_host : Host :=
  {| subtle_digest_SHA256 := sample_digest;
     URL_parse := sample_URL_parse;
     JSON_stringify := sample_stringify;
     storage_has_room := fun _ _ _ => false |}.

(** A login whose [idpUrl] is not a URL. *)
Definition login_without_idp : RedirectToLogin :=
  mkRedirectToLogin "" "client1" "https://app.example/cb" None None.

Definition sample_exchange : ExchangeCode :=
  {| xc_code := "abc123";
     xc_codeVerifier := "verifier";
     xc_idpUrl := "https://idp.example";
     xc_clientId := "client1";
     xc_redirectUri := "https://app.example/cb" |}.

(** An exchange whose [code] holds [&]. *)
Definition exchange_with_ampersand : ExchangeCode :=
  {| xc_code := "abc&redirect_uri=https://other.example";
     xc_codeVerifier := "verifier";
     xc_idpUrl := "https://idp.example";
     xc_clientId := "client1";
     xc_redirectUri := "https://app.example/cb" |}.


End MoreSamples.

(** * Properties *)

(** ** Strings *)

Module JsStringFacts.
Import JsString Views.

Lemma append_nil (t : string) : "" ++ t = t.
Proof. reflexivity. Qed.

Lemma append_cons c (s t : string) : String c s ++ t = String c (s ++ t).
Proof. reflexivity. Qed.

Lemma all_chars_app p s t :
  all_chars p (s ++ t) = all_chars p s && all_chars p t.
Proof.
  induction s as [|c s IH]; [reflexivity|].
  rewrite append_cons. cbn [all_chars]. now rewrite IH, andb_assoc.
Qed.

Lemma all_chars_weaken (p q : ascii -> bool) s :
  (forall c, p c = true -> q c = true) ->
  all_chars p s = true -> all_chars q s = true.
Proof.
  intros Hpq. induction s as [|c s IH]; cbn [all_chars]; [reflexivity|].
  rewrite !andb_true_iff. intros [Hc Hs]. split; auto.
Qed.

Lemma all_chars_In p s :
  all_chars p s = true -> forall c, In c (list_ascii_of_string s) -> p c = true.
Proof.
  induction s as [|x s IH]; cbn [all_chars list_ascii_of_string]; intros Hs c Hin.
  - destruct Hin.
  - apply andb_true_iff in Hs as [Hx Hs]. destruct Hin as [<-|Hin]; auto.
Qed.

Lemma replace_all_app c d s t :
  replace_all c d (s ++ t) = replace_all c d s ++ replace_all c d t.
Proof.
  induction s as [|x s IH]; [reflexivity|].
  rewrite append_cons. cbn [replace_all]. now rewrite IH, append_cons.
Qed.

Lemma app_assoc_string (a b c : string) : (a ++ b) ++ c = a ++ (b ++ c).
Proof.
  induction a as [|x a IH]; [reflexivity|].
  now rewrite !append_cons, IH.
Qed.

End JsStringFacts.

(** ** The encoder *)

Module EncoderFacts.
Import JsString JsStringFacts Js Encoder Views.

Lemma list_ind3 {A} (P : list A -> Prop) :
  P [] -> (forall a, P [a]) -> (forall a b, P [a; b]) ->
  (forall a b c l, P l -> P (a :: b :: c :: l)) ->
  forall l, P l.
Proof.
  intros H0 H1 H2 H3.
  fix IH 1. intros [|a [|b [|c l]]]; [apply H0 | apply H1 | apply H2 | apply H3, IH].
Qed.

Lemma byte_bound (b : byte) : fromCharCode b < 256.
Proof. unfold fromCharCode. pose proof (Byte.to_N_bounded b). lia. Qed.

Lemma sextet0_lt a : a < 256 -> sextet0 a < 64.
Proof. unfold sextet0. intros. apply N.Div0.div_lt_upper_bound. lia. Qed.

Lemma sextet1_lt a b : b < 256 -> sextet1 a b < 64.
Proof. unfold sextet1. intros. 
  assert (a mod 4 < 4) by (apply N.mod_lt; lia).
  assert (b / 16 < 16) by (apply N.Div0.div_lt_upper_bound; lia). lia. Qed.

Lemma sextet2_lt b c : c < 256 -> sextet2 b c < 64.
Proof. unfold sextet2. intros.
  assert (b mod 16 < 16) by (apply N.mod_lt; lia).
  assert (c / 64 < 4) by (apply N.Div0.div_lt_upper_bound; lia). lia. Qed.

Lemma sextet3_lt c : sextet3 c < 64.
Proof. unfold sextet3. apply N.mod_lt. lia. Qed.

Lemma below_64_cases (P : N -> Prop) :
  (forall k : nat, (k < 64)%nat -> P (N.of_nat k)) -> forall n, n < 64 -> P n.
Proof.
  intros HP n Hn. rewrite <- (N2Nat.id n). apply HP. lia.
Qed.

Lemma sextet_of_char_at n : n < 64 -> sextet_of (char_at base64url_alphabet n) = Some n.
Proof.
  revert n. apply below_64_cases. intros k Hk.
  do 64 (destruct k as [|k]; [reflexivity|]). lia.
Qed.

Lemma url_char_of_btoa_char n : n < 64 ->
  (let c := char_at btoa_alphabet n in
   let c' := if Ascii.eqb c "+" then "-"%char else c in
   if Ascii.eqb c' "/" then "_"%char else c') = char_at base64url_alphabet n.
Proof.
  revert n. apply below_64_cases. intros k Hk.
  do 64 (destruct k as [|k]; [reflexivity|]). lia.
Qed.

Lemma url_char_plain n : n < 64 -> plain (char_at base64url_alphabet n) = true.
Proof.
  revert n. apply below_64_cases. intros k Hk.
  do 64 (destruct k as [|k]; [reflexivity|]). lia.
Qed.

Lemma octet0 a b : a < 256 -> b < 256 ->
  sextet0 a * 4 + sextet1 a b / 16 = a.
Proof.
  unfold sextet0, sextet1. intros.
  zify. Z.to_euclidean_division_equations. lia.
Qed.

Lemma octet1 a b c : a < 256 -> b < 256 -> c < 256 ->
  (sextet1 a b mod 16) * 16 + sextet2 b c / 4 = b.
Proof.
  unfold sextet1, sextet2. intros.
  zify. Z.to_euclidean_division_equations. lia.
Qed.

Lemma octet2 b c : b < 256 -> c < 256 ->
  (sextet2 b c mod 4) * 64 + sextet3 c = c.
Proof.
  unfold sextet2, sextet3. intros.
  zify. Z.to_euclidean_division_equations. lia.
Qed.

Lemma strip_keeps c s :
  Ascii.eqb c "=" = false ->
  strip_trailing_eq (String c s) = String c (strip_trailing_eq s).
Proof.
  intros Hc. cbn [strip_trailing_eq]. rewrite Hc.
  now destruct (strip_trailing_eq s).
Qed.

Lemma to_url_cons n s : n < 64 ->
  to_url (String (char_at btoa_alphabet n) s)
  = String (char_at base64url_alphabet n) (to_url s).
Proof.
  intros Hn. unfold to_url. cbn [replace_all].
  f_equal. now apply url_char_of_btoa_char.
Qed.

Lemma url_char_not_eq n : n < 64 -> Ascii.eqb (char_at base64url_alphabet n) "=" = false.
Proof.
  intros Hn. pose proof (url_char_plain n Hn) as Hp. unfold plain in Hp.
  destruct (Ascii.eqb (char_at base64url_alphabet n) "="); [|reflexivity].
  rewrite andb_false_r in Hp. discriminate.
Qed.

Lemma strip_url_cons n s : n < 64 ->
  strip_trailing_eq (String (char_at base64url_alphabet n) s)
  = String (char_at base64url_alphabet n) (strip_trailing_eq s).
Proof. intros. apply strip_keeps. now apply url_char_not_eq. Qed.

Lemma base64_to_url (buffer : list byte) :
  strip_trailing_eq (to_url (base64 (map fromCharCode buffer)))
  = base64url_nopad (map fromCharCode buffer).
Proof.
  induction buffer as [|a|a b|a b c l IH] using list_ind3.
  - reflexivity.
  - pose proof (byte_bound a).
    cbn [map base64 base64url_nopad].
    rewrite to_url_cons by now apply sextet0_lt.
    rewrite to_url_cons by (apply sextet1_lt; lia).
    rewrite strip_url_cons by now apply sextet0_lt.
    rewrite strip_url_cons by (apply sextet1_lt; lia).
    reflexivity.
  - pose proof (byte_bound a). pose proof (byte_bound b).
    cbn [map base64 base64url_nopad].
    rewrite to_url_cons by now apply sextet0_lt.
    rewrite to_url_cons by now apply sextet1_lt.
    rewrite to_url_cons by (apply sextet2_lt; lia).
    rewrite strip_url_cons by now apply sextet0_lt.
    rewrite strip_url_cons by now apply sextet1_lt.
    rewrite strip_url_cons by (apply sextet2_lt; lia).
    reflexivity.
  - pose proof (byte_bound a). pose proof (byte_bound b). pose proof (byte_bound c).
    cbn [map base64 base64url_nopad].
    rewrite to_url_cons by now apply sextet0_lt.
    rewrite to_url_cons by now apply sextet1_lt.
    rewrite to_url_cons by now apply sextet2_lt.
    rewrite to_url_cons by apply sextet3_lt.
    rewrite strip_url_cons by now apply sextet0_lt.
    rewrite strip_url_cons by now apply sextet1_lt.
    rewrite strip_url_cons by now apply sextet2_lt.
    rewrite strip_url_cons by apply sextet3_lt.
    now rewrite IH.
Qed.

(** [btoa] does not throw on the binary string of a buffer. *)
Lemma btoa_of_buffer (buffer : list byte) :
  btoa (map fromCharCode buffer) = inr (base64 (map fromCharCode buffer)).
Proof.
  unfold btoa.
  assert (Hall : forallb (fun unit => unit <? 256) (map fromCharCode buffer) = true).
  { induction buffer as [|b l IH]; [reflexivity|].
    cbn [map forallb]. rewrite IH, andb_true_r.
    apply N.ltb_lt, byte_bound. }
  now rewrite Hall.
Qed.

(** [arrayBufferToBase64] returns, and what it returns is the base64url
    encoding without padding of RFC 4648: the [btoa] text with [+] and [/]
    replaced and the padding stripped is the URL-safe encoding written
    directly. *)
Lemma encode_refines (buffer : list byte) :
  arrayBufferToBase64 buffer = inr (base64url_nopad (map fromCharCode buffer)).
Proof.
  unfold arrayBufferToBase64. cbv zeta. rewrite btoa_of_buffer.
  f_equal. apply base64_to_url.
Qed.

Lemma octet_of_byte (b : byte) n : n = fromCharCode b -> octet n = Some b.
Proof. intros ->. apply Byte.of_to_N. Qed.

Lemma octet_first (a : byte) b : b < 256 ->
  octet (sextet0 (fromCharCode a) * 4 + sextet1 (fromCharCode a) b / 16) = Some a.
Proof. intros. apply octet_of_byte, octet0; [apply byte_bound | assumption]. Qed.

Lemma octet_second a (b : byte) c : a < 256 -> c < 256 ->
  octet ((sextet1 a (fromCharCode b) mod 16) * 16 + sextet2 (fromCharCode b) c / 4)
  = Some b.
Proof. intros. apply octet_of_byte, octet1; [assumption | apply byte_bound | assumption]. Qed.

Lemma octet_third b (c : byte) : b < 256 ->
  octet ((sextet2 b (fromCharCode c) mod 4) * 64 + sextet3 (fromCharCode c)) = Some c.
Proof. intros. apply octet_of_byte, octet2; [assumption | apply byte_bound]. Qed.

Lemma decode_nopad (buffer : list byte) :
  base64url_decode (base64url_nopad (map fromCharCode buffer)) = Some buffer.
Proof.
  induction buffer as [|a|a b|a b c l IH] using list_ind3.
  - reflexivity.
  - pose proof (byte_bound a) as Ha.
    cbn [map base64url_nopad base64url_decode].
    rewrite !sextet_of_char_at by (first [now apply sextet0_lt | apply sextet1_lt; lia]).
    cbn [mbind option_bind].
    rewrite octet_first by lia.
    reflexivity.
  - pose proof (byte_bound a) as Ha. pose proof (byte_bound b) as Hb.
    cbn [map base64url_nopad base64url_decode].
    rewrite !sextet_of_char_at
      by (first [now apply sextet0_lt | now apply sextet1_lt | apply sextet2_lt; lia]).
    cbn [mbind option_bind].
    rewrite octet_first by lia.
    rewrite octet_second by lia.
    reflexivity.
  - pose proof (byte_bound a) as Ha. pose proof (byte_bound b) as Hb.
    pose proof (byte_bound c) as Hc.
    cbn [map base64url_nopad base64url_decode].
    rewrite !sextet_of_char_at
      by (first [now apply sextet0_lt | now apply sextet1_lt
                | now apply sextet2_lt | apply sextet3_lt]).
    cbn [mbind option_bind].
    rewrite octet_first by lia.
    rewrite octet_second by lia.
    rewrite octet_third by lia.
    fold (map fromCharCode l). rewrite IH. reflexivity.
Qed.

Lemma nopad_chars (p : ascii -> bool) (octets : list N) :
  (forall n, n < 64 -> p (char_at base64url_alphabet n) = true) ->
  Forall (fun n => n < 256) octets ->
  all_chars p (base64url_nopad octets) = true.
Proof.
  intros Hp.
  induction octets as [|a|a b|a b c l IH] using list_ind3; intros Hall.
  - reflexivity.
  - inversion Hall; subst. cbn [base64url_nopad all_chars].
    rewrite !Hp by (first [now apply sextet0_lt | apply sextet1_lt; lia]).
    reflexivity.
  - inversion Hall as [|? ? ? Hall']; subst. inversion Hall'; subst.
    cbn [base64url_nopad all_chars].
    rewrite !Hp
      by (first [now apply sextet0_lt | now apply sextet1_lt | apply sextet2_lt; lia]).
    reflexivity.
  - inversion Hall as [|? ? ? Hall1]; subst. inversion Hall1 as [|? ? ? Hall2]; subst.
    inversion Hall2; subst.
    cbn [base64url_nopad all_chars].
    rewrite !Hp
      by (first [now apply sextet0_lt | now apply sextet1_lt
                | now apply sextet2_lt | apply sextet3_lt]).
    rewrite IH by assumption. reflexivity.
Qed.

Lemma octets_bounded (buffer : list byte) :
  Forall (fun n => n < 256) (map fromCharCode buffer).
Proof.
  induction buffer as [|b l IH]; constructor; [apply byte_bound | exact IH].
Qed.

Lemma encode_chars (p : ascii -> bool) (buffer : list byte) :
  (forall n, n < 64 -> p (char_at base64url_alphabet n) = true) ->
  all_chars p (base64url_nopad (map fromCharCode buffer)) = true.
Proof. intros Hp. apply nopad_chars; [exact Hp | apply octets_bounded]. Qed.

(** C8: for every byte sequence the encoder returns a text (it is total:
    [btoa] never throws on the octets of a buffer); decoding that text as
    base64url gives the bytes back; and the text holds none of the
    characters [+], [/] and [=]. *)
Theorem arrayBufferToBase64_round_trip (buffer : list byte) :
  exists text,
    arrayBufferToBase64 buffer = inr text
    /\ base64url_decode text = Some buffer
    /\ forall c, In c (list_ascii_of_string text) ->
         c <> "+"%char /\ c <> "/"%char /\ c <> "="%char.
Proof.
  exists (base64url_nopad (map fromCharCode buffer)).
  split; [apply encode_refines|].
  split; [apply decode_nopad|].
  intros c Hin.
  pose proof (all_chars_In plain _ (encode_chars plain buffer url_char_plain) c Hin)
    as Hc.
  unfold plain in Hc. apply andb_true_iff in Hc as [Hc H3].
  apply andb_true_iff in Hc as [H1 H2].
  apply negb_true_iff in H1, H2, H3.
  repeat split; intros ->; discriminate.
Qed.

(** The test vectors of RFC 4648, section 10, without their padding, and
    two octets that need the URL-safe characters. *)
Example encode_rfc4648_vectors :
  map (fun s => arrayBufferToBase64 (list_byte_of_string s))
    [""; "f"; "fo"; "foo"; "foob"; "fooba"; "foobar"]
  = map inr [""; "Zg"; "Zm8"; "Zm9v"; "Zm9vYg"; "Zm9vYmE"; "Zm9vYmFy"].
Proof. reflexivity. Qed.

Example encode_url_safe :
  arrayBufferToBase64 [xfb; xff; xfe] = inr "-__-"
  /\ btoa [251; 255; 254] = inr "+//+"
  /\ btoa [77] = inr "TQ=="
  /\ btoa [256] = inl InvalidCharacterError.
Proof. repeat split. Qed.

End EncoderFacts.

(** ** URL encoding *)

Module UrlFacts.
Import JsString JsStringFacts Browser Url Views Shapes.

Ltac each_byte c :=
  destruct c as [[] [] [] [] [] [] [] []].

Lemma urlencode_byte_chars c : all_chars urlencoded_char (urlencode_byte c) = true.
Proof. each_byte c; reflexivity. Qed.

Lemma urlencode_chars s : all_chars urlencoded_char (urlencode s) = true.
Proof.
  induction s as [|c s IH]; cbn [urlencode]; [reflexivity|].
  now rewrite all_chars_app, urlencode_byte_chars, IH.
Qed.

Lemma urlencode_unreserved s :
  all_chars urlencoded_unreserved s = true -> urlencode s = s.
Proof.
  induction s as [|c s IH]; cbn [urlencode all_chars]; [reflexivity|].
  intros [Hc Hs]%andb_true_iff. rewrite (IH Hs). clear IH Hs.
  revert Hc. each_byte c; intros Hc; try discriminate Hc; reflexivity.
Qed.

Lemma urldecode_byte c rest :
  percent_decode (replace_all "+" " " (urlencode_byte c ++ rest))
  = String c (percent_decode (replace_all "+" " " rest)).
Proof. each_byte c; reflexivity. Qed.

(** *** Reading bytes as UTF-8 *)

Lemma utf8_decode_low b rest :
  (code_of b <=? 127) = true ->
  utf8_decode (String b rest) = String b (utf8_decode rest).
Proof. intros Hb. cbn [utf8_decode]. cbv zeta. now rewrite Hb. Qed.

Lemma unreserved_low c : urlencoded_unreserved c = true -> (code_of c <=? 127) = true.
Proof. each_byte c; intros Hc; try discriminate Hc; reflexivity. Qed.

(** ASCII text is its own reading. *)
Lemma utf8_decode_unreserved s :
  all_chars urlencoded_unreserved s = true -> utf8_decode s = s.
Proof.
  induction s as [|c s IH]; cbn [all_chars]; [reflexivity|].
  intros [Hc Hs]%andb_true_iff.
  now rewrite (utf8_decode_low _ _ (unreserved_low _ Hc)), (IH Hs).
Qed.

Lemma between_spec lo hi n : between lo hi n = true <-> lo <= n <= hi.
Proof. unfold between. rewrite andb_true_iff, !N.leb_le. tauto. Qed.

Lemma between_out lo hi n : n < lo \/ hi < n -> between lo hi n = false.
Proof.
  intros Hout. destruct (between lo hi n) eqn:Hb; [|reflexivity].
  apply between_spec in Hb. lia.
Qed.

Lemma utf8_decode_two b c rest :
  between 194 223 (code_of b) = true ->
  between 128 191 (code_of c) = true ->
  utf8_decode (String b (String c rest)) = String b (String c (utf8_decode rest)).
Proof.
  intros Hb Hc. cbn [utf8_decode]. cbv zeta. rewrite Hb, Hc.
  apply between_spec in Hb.
  now replace (code_of b <=? 127) with false by (symmetry; apply N.leb_gt; lia).
Qed.

Lemma utf8_decode_three b c1 c2 rest :
  between 224 239 (code_of b) = true ->
  between (if code_of b =? 224 then 160 else 128)
          (if code_of b =? 237 then 159 else 191) (code_of c1) = true ->
  between 128 191 (code_of c2) = true ->
  utf8_decode (String b (String c1 (String c2 rest)))
  = String b (String c1 (String c2 (utf8_decode rest))).
Proof.
  intros Hb Hc1 Hc2. cbn [utf8_decode]. cbv zeta. rewrite Hb, Hc1, Hc2.
  apply between_spec in Hb.
  replace (code_of b <=? 127) with false by (symmetry; apply N.leb_gt; lia).
  now rewrite between_out by lia.
Qed.

Lemma utf8_decode_four b c1 c2 c3 rest :
  between 240 244 (code_of b) = true ->
  between (if code_of b =? 240 then 144 else 128)
          (if code_of b =? 244 then 143 else 191) (code_of c1) = true ->
  between 128 191 (code_of c2) = true ->
  between 128 191 (code_of c3) = true ->
  utf8_decode (String b (String c1 (String c2 (String c3 rest))))
  = String b (String c1 (String c2 (String c3 (utf8_decode rest)))).
Proof.
  intros Hb Hc1 Hc2 Hc3. cbn [utf8_decode]. cbv zeta. rewrite Hb, Hc1, Hc2, Hc3.
  apply between_spec in Hb.
  replace (code_of b <=? 127) with false by (symmetry; apply N.leb_gt; lia).
  now rewrite !between_out by lia.
Qed.

Lemma code_of_byte n : n < 256 -> code_of (ascii_of_N n) = n.
Proof. apply N_ascii_embedding. Qed.

Ltac div_mod_lia := zify; Z.to_euclidean_division_equations; lia.

(** The UTF-8 of a string is its own reading: the parser hands back what
    the serialiser was given. *)
Lemma utf8_decode_encode points :
  forallb is_scalar_value points = true ->
  utf8_decode (utf8_encode points) = utf8_encode points.
Proof.
  induction points as [|p points IH]; cbn [forallb utf8_encode]; [reflexivity|].
  intros [Hp Hrest]%andb_true_iff. specialize (IH Hrest).
  unfold is_scalar_value in Hp.
  apply orb_true_iff in Hp. rewrite N.ltb_lt, andb_true_iff, !N.leb_le in Hp.
  unfold utf8_encode_point.
  destruct (N.leb_spec p 127) as [H1|H1].
  { rewrite append_cons, append_nil, utf8_decode_low, IH; [reflexivity|].
    rewrite code_of_byte by lia. now apply N.leb_le. }
  destruct (N.leb_spec p 2047) as [H2|H2].
  { rewrite !append_cons, append_nil, utf8_decode_two, IH; [reflexivity| |];
      apply between_spec; rewrite code_of_byte by div_mod_lia; div_mod_lia. }
  destruct (N.leb_spec p 65535) as [H3|H3].
  { rewrite !append_cons, append_nil, utf8_decode_three, IH; [reflexivity| | |].
    - apply between_spec; rewrite code_of_byte by div_mod_lia; div_mod_lia.
    - rewrite !code_of_byte by div_mod_lia. apply between_spec.
      destruct (N.eqb_spec (224 + p / 4096) 224);
        destruct (N.eqb_spec (224 + p / 4096) 237); div_mod_lia.
    - apply between_spec; rewrite code_of_byte by div_mod_lia; div_mod_lia. }
  rewrite !append_cons, append_nil, utf8_decode_four, IH; [reflexivity| | | |].
  - apply between_spec; rewrite code_of_byte by div_mod_lia; div_mod_lia.
  - rewrite !code_of_byte by div_mod_lia. apply between_spec.
    destruct (N.eqb_spec (240 + p / 262144) 240);
      destruct (N.eqb_spec (240 + p / 262144) 244); div_mod_lia.
  - apply between_spec; rewrite code_of_byte by div_mod_lia; div_mod_lia.
  - apply between_spec; rewrite code_of_byte by div_mod_lia; div_mod_lia.
Qed.

(** The reading of a text that is not empty is not empty. *)
Lemma utf8_decode_nonempty s : s <> "" -> utf8_decode s <> "".
Proof.
  destruct s as [|b rest]; [congruence|]. intros _.
  cbn [utf8_decode]. cbv zeta. unfold replaced.
  repeat match goal with
         | |- (if ?c then _ else _) <> _ => destruct c
         | |- match ?r with EmptyString => _ | String _ _ => _ end <> _ => destruct r
         end; discriminate.
Qed.

Lemma urldecode_urlencode s : urldecode (urlencode s) = utf8_decode s.
Proof.
  unfold urldecode. f_equal.
  induction s as [|c s IH]; cbn [urlencode]; [reflexivity|].
  now rewrite urldecode_byte, IH.
Qed.

Lemma split_on_piece c a :
  all_chars (is_not c) a = true -> split_on c a = [a].
Proof.
  induction a as [|x a IH]; cbn [all_chars split_on]; [reflexivity|].
  unfold is_not at 1. intros [Hx Ha]%andb_true_iff.
  apply negb_true_iff in Hx. rewrite Hx, (IH Ha). reflexivity.
Qed.

Lemma split_on_sep c a rest :
  all_chars (is_not c) a = true ->
  split_on c (a ++ String c rest) = a :: split_on c rest.
Proof.
  induction a as [|x a IH]; intros Ha.
  - rewrite append_nil. cbn [split_on]. now rewrite Ascii.eqb_refl.
  - rewrite append_cons. cbn [all_chars split_on] in *.
    apply andb_true_iff in Ha as [Hx Ha]. apply negb_true_iff in Hx.
    rewrite Hx, (IH Ha). reflexivity.
Qed.

Lemma split_on_join c piece pieces :
  Forall (fun p => all_chars (is_not c) p = true) (piece :: pieces) ->
  split_on c (join (String c "") (piece :: pieces)) = piece :: pieces.
Proof.
  revert piece. induction pieces as [|q pieces IH]; intros piece Hall.
  - cbn [join]. apply split_on_piece. now inversion Hall.
  - inversion Hall as [|? ? Hp Hrest]; subst.
    change (join (String c "") (piece :: q :: pieces))
      with (piece ++ String c "" ++ join (String c "") (q :: pieces)).
    rewrite append_cons, append_nil, split_on_sep by assumption.
    now rewrite IH.
Qed.

Lemma cut_at_sep c a rest :
  all_chars (is_not c) a = true ->
  cut_at c (a ++ String c rest) = (a, Some rest).
Proof.
  induction a as [|x a IH]; intros Ha.
  - rewrite append_nil. cbn [cut_at]. now rewrite Ascii.eqb_refl.
  - rewrite append_cons. cbn [all_chars cut_at] in *.
    apply andb_true_iff in Ha as [Hx Ha]. apply negb_true_iff in Hx.
    rewrite Hx, (IH Ha). reflexivity.
Qed.

Lemma urlencoded_char_not_sep c :
  urlencoded_char c = true -> is_not "&" c = true /\ is_not "=" c = true.
Proof. each_byte c; intros Hc; try discriminate Hc; split; reflexivity. Qed.

Lemma parse_encode_pair p :
  parse_pair (encode_pair p) = (utf8_decode (fst p), utf8_decode (snd p)).
Proof.
  destruct p as [k v]. unfold parse_pair, encode_pair.
  rewrite append_cons, append_nil, cut_at_sep.
  - now rewrite !urldecode_urlencode.
  - eapply all_chars_weaken; [|apply urlencode_chars].
    intros c Hc. now apply urlencoded_char_not_sep.
Qed.

Lemma encode_pair_piece p :
  all_chars (is_not "&") (encode_pair p) = true /\ nonempty (encode_pair p) = true.
Proof.
  destruct p as [k v]. unfold encode_pair. split.
  - rewrite !all_chars_app. cbn [all_chars].
    rewrite !(all_chars_weaken urlencoded_char (is_not "&") _
                (fun c Hc => proj1 (urlencoded_char_not_sep c Hc))
                (urlencode_chars _)).
    reflexivity.
  - destruct (urlencode k); reflexivity.
Qed.

(** Parsing what [URLSearchParams.toString] wrote gives the pairs back,
    each name and value read as UTF-8. *)
Lemma urlencoded_parse_toString pairs :
  urlencoded_parse (URLSearchParams_toString pairs)
  = map (fun p => (utf8_decode (fst p), utf8_decode (snd p))) pairs.
Proof.
  unfold urlencoded_parse, URLSearchParams_toString.
  change (fun '(k, v) => urlencode k ++ "=" ++ urlencode v) with encode_pair.
  destruct pairs as [|p pairs]; [reflexivity|].
  change (map encode_pair (p :: pairs)) with (encode_pair p :: map encode_pair pairs).
  rewrite split_on_join.
  - change (encode_pair p :: map encode_pair pairs) with (map encode_pair (p :: pairs)).
    induction (p :: pairs) as [|q qs IH]; [reflexivity|].
    cbn [map List.filter]. rewrite (proj2 (encode_pair_piece q)).
    cbn [map]. now rewrite parse_encode_pair, IH.
  - change (encode_pair p :: map encode_pair pairs) with (map encode_pair (p :: pairs)).
    apply List.Forall_forall. intros x [q [<- _]]%in_map_iff.
    apply encode_pair_piece.
Qed.

Lemma query_state_plain special s :
  all_chars query_plain s = true -> query_state special s = s.
Proof.
  induction s as [|c s IH]; cbn [all_chars query_state]; [reflexivity|].
  intros [Hc Hs]%andb_true_iff. rewrite (IH Hs). clear IH Hs.
  revert Hc. destruct special; each_byte c; intros Hc; try discriminate Hc; reflexivity.
Qed.

Lemma urlencoded_char_query_plain c :
  urlencoded_char c = true -> query_plain c = true.
Proof. each_byte c; intros Hc; try discriminate Hc; reflexivity. Qed.

Lemma toString_query_plain pairs :
  all_chars query_plain (URLSearchParams_toString pairs) = true.
Proof.
  unfold URLSearchParams_toString.
  change (fun '(k, v) => urlencode k ++ "=" ++ urlencode v) with encode_pair.
  assert (Hpair : forall p, all_chars query_plain (encode_pair p) = true).
  { intros [k v]. unfold encode_pair. rewrite !all_chars_app. cbn [all_chars].
    rewrite !(all_chars_weaken _ _ _ urlencoded_char_query_plain (urlencode_chars _)).
    reflexivity. }
  induction pairs as [|p [|q pairs] IH].
  - reflexivity.
  - apply Hpair.
  - change (map encode_pair (p :: q :: pairs))
      with (encode_pair p :: map encode_pair (q :: pairs)).
    change (join "&" (encode_pair p :: map encode_pair (q :: pairs)))
      with (encode_pair p ++ "&" ++ join "&" (map encode_pair (q :: pairs))).
    rewrite !all_chars_app, Hpair, IH. reflexivity.
Qed.

Example URLSearchParams_toString_example :
  URLSearchParams_toString
    [("scope", "openid profile"); ("redirect_uri", "https://app.example/cb?x=1&y=*")]
  = "scope=openid+profile&redirect_uri=https%3A%2F%2Fapp.example%2Fcb%3Fx%3D1%26y%3D*".
Proof. reflexivity. Qed.

Example URLSearchParams_of_string_example :
  URLSearchParams_of_string "?code=abc%2F123&state=&&flag&x=1=2&q=a+b"
  = [("code", "abc/123"); ("state", ""); ("flag", ""); ("x", "1=2"); ("q", "a b")].
Proof. reflexivity. Qed.

(** A percent escape that is no UTF-8 reads as U+FFFD, as does a sequence
    cut short; a well-formed sequence is kept. *)
Example URLSearchParams_of_string_not_utf8 :
  URLSearchParams_of_string "?code=a&state=%FF" = [("code", "a"); ("state", replaced "")]
  /\ URLSearchParams_of_string "?code=%E2%82z&state=%C3%A9%80"
     = [ ("code", replaced "z");
         ("state", String (ascii_of_N 195) (String (ascii_of_N 169) (replaced ""))) ]
  /\ URLSearchParams_of_string "?code=%ED%A0%80"
     = [("code", replaced (replaced (replaced "")))]
  /\ URLSearchParams_of_string "?code=%F0%9F%98%80"
     = [ ("code", String (ascii_of_N 240) (String (ascii_of_N 159)
                    (String (ascii_of_N 152) (String (ascii_of_N 128) "")))) ].
Proof. repeat split. Qed.

End UrlFacts.
(** ** The challenge *)

Module CryptoFacts.
Import Js Browser JsString Encoder Crypto Views Shapes.

Section WithHost.
Context `{Host}.

Lemma generateNonce_run (w : World) :
  generateNonce w
  = (inr (nonce_of (drawn_words w 0)),
     with_entropy (fun i => entropy w (4 + i)%nat) w).
Proof. reflexivity. Qed.

Lemma getChallenge_run (w : World) :
  getChallenge w
  = (inr (challenge_of w),
     with_entropy (fun i => entropy w (4 + (4 + i))%nat) w).
Proof.
  unfold getChallenge, bind. rewrite generateNonce_run.
  rewrite generateNonce_run. unfold lift.
  rewrite EncoderFacts.encode_refines. reflexivity.
Qed.



(** The nonce is lower-case hexadecimal, two digits per octet of the digest,
    so the URL serialiser writes it as it is. *)
Lemma all_chars_join p sep parts :
  all_chars p sep = true ->
  Forall (fun x => all_chars p x = true) parts ->
  all_chars p (join sep parts) = true.
Proof.
  intros Hsep Hall. induction Hall as [|x [|y rest] Hx Hrest IH].
  - reflexivity.
  - exact Hx.
  - change (join sep (x :: y :: rest)) with (x ++ sep ++ join sep (y :: rest)).
    now rewrite !JsStringFacts.all_chars_app, Hx, Hsep, IH.
Qed.

Lemma hex_octet_unreserved (b : byte) :
  all_chars Url.urlencoded_unreserved (padStart 2 "0" (toString16 (Byte.to_N b))) = true.
Proof. destruct b; reflexivity. Qed.

Lemma nonce_unreserved (words : list N) :
  all_chars Url.urlencoded_unreserved (nonce_of words) = true.
Proof.
  unfold nonce_of. apply all_chars_join; [reflexivity|].
  induction (sha256 (Uint32Array_toString words)) as [|b l IH]; constructor.
  - apply hex_octet_unreserved.
  - exact IH.
Qed.

Lemma url_char_unreserved n :
  n < 64 -> Url.urlencoded_unreserved (char_at base64url_alphabet n) = true.
Proof.
  revert n. apply EncoderFacts.below_64_cases. intros k Hk.
  do 64 (destruct k as [|k]; [reflexivity|]). lia.
Qed.

Lemma codeChallenge_unreserved (w : World) :
  all_chars Url.urlencoded_unreserved (codeChallenge (challenge_of w)) = true.
Proof. apply EncoderFacts.encode_chars, url_char_unreserved. Qed.

End WithHost.
End CryptoFacts.

(** ** The redirects *)

Module RedirectFacts.
Import Js Browser JsString JsStringFacts Encoder Crypto Url UrlFacts Schemas Pkce Views.

Section WithHost.
Context `{Host}.

Lemma redirectToLogin_run (params : RedirectToLogin) (w : World) :
  redirectToLogin params w =
  let ch := challenge_of w in
  if storage_has_room (sessionStorage w) (state ch) (codeVerifier ch) then
    match URL_parse (default "/login" (login_path params)) (login_idpUrl params) with
    | Some u => (inr tt, emit (EvNavigate (login_href params ch u)) (after_persist w))
    | None => (inl (TypeError "Invalid URL"), after_persist w)
    end
  else (inl QuotaExceededError,
        with_entropy (fun i => entropy w (4 + (4 + i))%nat) w).
Proof.
  unfold redirectToLogin, bind. rewrite CryptoFacts.getChallenge_run.
  unfold setItem, new_URL, after_persist. cbn [sessionStorage with_entropy].
  destruct (storage_has_room _ _ _); [|reflexivity].
  destruct (URL_parse _ _); reflexivity.
Qed.

(** C1: in every call of [redirectToLogin] the write of [codeVerifier]
    under [state] is logged, and in the store, before the navigation: an
    [EvNavigate] among the events of the call has exactly the [EvSetItem]
    before it and nothing after it; the write happens whenever the store
    takes it; and once the write is among the events, looking [state] up in
    the store gives the [codeVerifier] of the same challenge. *)
Theorem redirectToLogin_persists_before_navigating
    (params : RedirectToLogin) (w : World) :
  exists ch w0 events,
    getChallenge w = (inr ch, w0)
    /\ log (snd (redirectToLogin params w)) = (log w ++ events)%list
    /\ (forall href before after,
          events = (before ++ EvNavigate href :: after)%list ->
          before = [EvSetItem (state ch) (codeVerifier ch)] /\ after = [])
    /\ (storage_has_room (sessionStorage w) (state ch) (codeVerifier ch) = true ->
        In (EvSetItem (state ch) (codeVerifier ch)) events)
    /\ (In (EvSetItem (state ch) (codeVerifier ch)) events ->
        sessionStorage (snd (redirectToLogin params w)) !! state ch
        = Some (codeVerifier ch)).
Proof.
  exists (challenge_of w), (with_entropy (fun i => entropy w (4 + (4 + i))%nat) w).
  rewrite redirectToLogin_run. cbv zeta.
  destruct (storage_has_room _ _ _) eqn:Hroom.
  - destruct (URL_parse _ _) as [u|].
    + exists [EvSetItem (state (challenge_of w)) (codeVerifier (challenge_of w));
              EvNavigate (login_href params (challenge_of w) u)].
      split; [apply CryptoFacts.getChallenge_run|].
      split.
      { cbn [snd log emit after_persist with_storage with_entropy].
        now rewrite <- app_assoc. }
      split.
      { intros href [|e1 [|e2 before]] after Heq; cbn in Heq;
          try discriminate Heq.
        - injection Heq as <- _ <-. now split.
        - injection Heq as _ _ Heq. destruct before; discriminate Heq. }
      split; [intros _; now left|].
      intros _. cbn [snd sessionStorage emit after_persist with_storage].
      apply lookup_insert_eq.
    + exists [EvSetItem (state (challenge_of w)) (codeVerifier (challenge_of w))].
      split; [apply CryptoFacts.getChallenge_run|].
      split; [reflexivity|].
      split.
      { intros href [|e1 [|e2 before]] after Heq; discriminate Heq. }
      split; [intros _; now left|].
      intros _. cbn [snd sessionStorage emit after_persist with_storage].
      apply lookup_insert_eq.
  - exists [].
    split; [apply CryptoFacts.getChallenge_run|].
    split; [cbn [snd log with_entropy]; now rewrite app_nil_r|].
    split.
    { intros href [|e1 before] after Heq; discriminate Heq. }
    split; [discriminate|]. intros [].
Qed.

Lemma login_query_toString scope clientId redirectUri (w : World) :
  URLSearchParams_toString (login_query scope clientId redirectUri (challenge_of w))
  = login_query_string scope clientId redirectUri (challenge_of w).
Proof.
  unfold URLSearchParams_toString, login_query, login_query_string.
  cbn [map join].
  rewrite (urlencode_unreserved (state (challenge_of w)))
    by apply CryptoFacts.nonce_unreserved.
  rewrite (urlencode_unreserved (codeChallenge (challenge_of w)))
    by apply CryptoFacts.codeChallenge_unreserved.
  reflexivity.
Qed.

Lemma login_href_eq (params : RedirectToLogin) (w : World) (u : URL) :
  login_href params (challenge_of w) u
  = url_origin_path u ++ "?"
    ++ login_query_string (default "openid" (login_scope params))
         (login_clientId params) (login_redirectUri params) (challenge_of w)
    ++ match url_fragment u with Some f => "#" ++ f | None => "" end.
Proof.
  unfold login_href.
  pose proof (toString_query_plain
                (login_query (default "openid" (login_scope params))
                   (login_clientId params) (login_redirectUri params)
                   (challenge_of w))) as Hplain.
  rewrite login_query_toString in *.
  set (q := login_query_string _ _ _ _) in *.
  assert (Hq : exists rest, q = String "r" rest) by (eexists; reflexivity).
  destruct Hq as [rest Hq]. rewrite Hq in *.
  unfold set_search, URL_toString, strip_question_mark.
  cbn [url_origin_path url_query url_fragment].
  rewrite (query_state_plain _ _ Hplain).
  reflexivity.
Qed.

(** C7: when [new URL(path, idpUrl)] gives [u] (with [path] defaulting to
    [/login]) and the store takes the verifier, [redirectToLogin] navigates
    to [u] with its query replaced by the seven parameters
    [response_type=code], [scope] (default [openid]), [state], [client_id],
    [code_challenge], [code_challenge_method=S256] and [redirect_uri], in
    this order and no other, [state] and [code_challenge] being those of the
    challenge generated in the call.  A server that parses the query reads
    each value as UTF-8: [utf8_decode v] is [v] itself whenever [v] is the
    UTF-8 of a string ([utf8_decode_encode]). *)
Theorem redirectToLogin_authorization_url
    (params : RedirectToLogin) (w : World) (u : URL) :
  let ch := challenge_of w in
  let scope := default "openid" (login_scope params) in
  let query :=
    login_query_string scope (login_clientId params) (login_redirectUri params) ch in
  storage_has_room (sessionStorage w) (state ch) (codeVerifier ch) = true ->
  URL_parse (default "/login" (login_path params)) (login_idpUrl params) = Some u ->
  fst (getChallenge w) = inr ch
  /\ redirectToLogin params w
     = (inr tt,
        emit (EvNavigate
                (url_origin_path u ++ "?" ++ query
                 ++ match url_fragment u with Some f => "#" ++ f | None => "" end))
          (after_persist w))
  /\ urlencoded_parse query
     = [ ("response_type", "code");
         ("scope", utf8_decode scope);
         ("state", state ch);
         ("client_id", utf8_decode (login_clientId params));
         ("code_challenge", codeChallenge ch);
         ("code_challenge_method", "S256");
         ("redirect_uri", utf8_decode (login_redirectUri params)) ].
Proof.
  intros ch scope query Hroom Hurl.
  split; [now rewrite CryptoFacts.getChallenge_run|].
  split.
  - rewrite redirectToLogin_run. cbv zeta. fold ch.
    rewrite Hroom, Hurl. unfold ch. now rewrite login_href_eq.
  - unfold query, ch. rewrite <- login_query_toString.
    rewrite urlencoded_parse_toString. unfold login_query.
    cbn [map fst snd].
    rewrite (utf8_decode_unreserved (state (challenge_of w))
               (CryptoFacts.nonce_unreserved _)).
    rewrite (utf8_decode_unreserved _ (CryptoFacts.codeChallenge_unreserved w)).
    reflexivity.
Qed.

(** C9: [redirectToLogout] navigates to
    [idpUrl ++ path ++ "?client_id=" ++ clientId ++ "&logout_uri=" ++ logoutUri],
    [path] defaulting to [/logout] and the values written as they are; it
    logs no storage event and leaves the store as it was. *)
Theorem redirectToLogout_navigates (params : RedirectToLogout) (w : World) :
  let href :=
    logout_idpUrl params ++ default "/logout" (logout_path params)
    ++ "?client_id=" ++ logout_clientId params
    ++ "&logout_uri=" ++ logout_logoutUri params in
  fst (redirectToLogout params w) = inr tt
  /\ log (snd (redirectToLogout params w)) = (log w ++ [EvNavigate href])%list
  /\ sessionStorage (snd (redirectToLogout params w)) = sessionStorage w.
Proof.
  intros href. unfold redirectToLogout, navigate.
  cbn [fst snd log sessionStorage emit]. now repeat split.
Qed.

End WithHost.
End RedirectFacts.

(** ** Validation of the token response *)

Module SchemaFacts.
Import Js Browser JsString Schemas Pkce Views Shapes.

Lemma validateAuth_cases (raw : value) :
  if rejects raw
  then exists e, validateAuth raw = inl e /\ SchemaError e
  else validateAuth raw = inr raw.
Proof.
  unfold rejects, validateAuth, is_object.
  destruct (String.eqb (typeof raw) "object" ); cbn [negb andb orb];
    [|eexists; split; [reflexivity | cbn; tauto]].
  destruct (match raw with VNull => true | _ => false end); cbn [negb orb];
    [eexists; split; [reflexivity | cbn; tauto]|].
  destruct (is_string (get raw "access_token")); cbn [negb orb];
    [|eexists; split; [reflexivity | cbn; tauto]].
  destruct (is_number (get raw "expires_in")); cbn [negb orb];
    [|eexists; split; [reflexivity | cbn; tauto]].
  destruct (is_string (get raw "id_token")); cbn [negb orb];
    [|eexists; split; [reflexivity | cbn; tauto]].
  destruct (is_string (get raw "refresh_token")); cbn [negb orb];
    [|eexists; split; [reflexivity | cbn; tauto]].
  destruct (strict_eq_string (get raw "token_type") "Bearer"); cbn [negb orb];
    [reflexivity | eexists; split; [reflexivity | cbn; tauto]].
Qed.

Lemma eqb_false_ne (s t : string) : String.eqb s t = false <-> s <> t.
Proof. apply String.eqb_neq. Qed.

Lemma strict_eq_string_spec (v : value) (s : string) :
  strict_eq_string v s = true <-> v = VString s.
Proof.
  destruct v; cbn [strict_eq_string]; try (split; [discriminate | intros [=]]).
  rewrite String.eqb_eq. split; [now intros -> | now intros [= ->]].
Qed.

Lemma rejects_Rejected (raw : value) : rejects raw = true <-> Rejected raw.
Proof.
  unfold rejects, Rejected, is_object, is_string, is_number.
  rewrite !orb_true_iff, !negb_true_iff, andb_false_iff, negb_false_iff.
  rewrite !eqb_false_ne.
  assert (Hnull : (match raw with VNull => true | _ => false end) = true
                  <-> raw = VNull)
    by (destruct raw; split; (reflexivity || discriminate)).
  assert (Hbearer : strict_eq_string (get raw "token_type") "Bearer" = false
                    <-> get raw "token_type" <> VString "Bearer").
  { rewrite <- strict_eq_string_spec.
    destruct (strict_eq_string _ _); split; congruence. }
  rewrite Hnull, Hbearer. tauto.
Qed.

(** The three inputs of the specification's validation test: a string in
    [expires_in], [token_type] in the wrong case, and a conforming object. *)
Example validateAuth_examples :
  validateAuth
    (VObject [ ("access_token", VString "a"); ("expires_in", VString "60");
               ("id_token", VString "b"); ("refresh_token", VString "c");
               ("token_type", VString "Bearer") ])
  = inl (Error "expires_in must be a number")
  /\ validateAuth
       (VObject [ ("access_token", VString "a"); ("expires_in", VNumber (Finite 60));
                  ("id_token", VString "b"); ("refresh_token", VString "c");
                  ("token_type", VString "bearer") ])
     = inl (Error "token_type must be 'Bearer'")
  /\ validateAuth
       (VObject [ ("access_token", VString "a"); ("expires_in", VNumber (Finite 60));
                  ("id_token", VString "b"); ("refresh_token", VString "c");
                  ("token_type", VString "Bearer"); ("scope", VString "openid") ])
     = inr (VObject [ ("access_token", VString "a");
                      ("expires_in", VNumber (Finite 60));
                      ("id_token", VString "b"); ("refresh_token", VString "c");
                      ("token_type", VString "Bearer"); ("scope", VString "openid") ]).
Proof. repeat split. Qed.

(** *** The zod schema of the other revision *)

Section WithMessages.
Context `{ZodMessages}.

Lemma zod_accepts_string v : zod_accepts z_string v = is_string v.
Proof. destruct v; reflexivity. Qed.

Lemma zod_accepts_number v :
  zod_accepts z_number v = is_number v && negb (is_nan v).
Proof. destruct v as [| | |[]| | |]; reflexivity. Qed.

Lemma zod_accepts_bearer v :
  zod_accepts (z_enum ["Bearer"]) v = strict_eq_string v "Bearer".
Proof.
  destruct v; try reflexivity. cbn [zod_accepts mem_string strict_eq_string].
  now rewrite orb_false_r, String.eqb_sym.
Qed.

(** [authSchema] refuses the response without [token_type] as well. *)
Lemma authSchema_rejects_absent_token_type :
  safeParse authSchema auth_without_token_type
  = inl [mkIssue ["token_type"] (zod_invalid (z_enum ["Bearer"]) VUndefined)].
Proof. reflexivity. Qed.

(** [authSchema.safeParse] succeeds on the inputs [validateAuth] accepts,
    [NaN] in [expires_in] apart, and its data are the five fields of the
    input, other keys dropped. *)
Lemma authSchema_accepts_exactly (raw : value) :
  match safeParse authSchema raw with
  | inr data =>
      rejects raw = false /\ is_nan (get raw "expires_in") = false
      /\ data = VObject (map (fun k => (k, get raw k))
                           ["access_token"; "expires_in"; "id_token";
                            "refresh_token"; "token_type"])
  | inl _ => rejects raw = true \/ is_nan (get raw "expires_in") = true
  end.
Proof.
  destruct raw as [| | | | | |props]; try (left; reflexivity).
  unfold safeParse, authSchema, rejects, is_object.
  cbn [zod_object_issues typeof String.eqb Ascii.eqb Bool.eqb andb negb orb].
  rewrite !zod_accepts_string, zod_accepts_number, zod_accepts_bearer.
  destruct (is_string (get (VObject props) "access_token")); [|left; reflexivity].
  destruct (is_number (get (VObject props) "expires_in"));
    [|left; cbn; now rewrite ?orb_true_r].
  destruct (is_string (get (VObject props) "id_token"));
    [|destruct (is_nan _); [now right | left; reflexivity]].
  destruct (is_string (get (VObject props) "refresh_token"));
    [|destruct (is_nan _); [now right | left; reflexivity]].
  destruct (strict_eq_string (get (VObject props) "token_type") "Bearer");
    [|destruct (is_nan _); [now right | left; reflexivity]].
  destruct (is_nan (get (VObject props) "expires_in")); [now right|].
  cbn. repeat split.
Qed.

Lemma safeParse_issues (raw : value) issues :
  safeParse authSchema raw = inl issues -> issues <> [].
Proof.
  unfold safeParse. destruct raw; try (intros [= <-]; discriminate).
  destruct (zod_object_issues authSchema (VObject props)) as [|i rest];
    [discriminate | intros [= <-]; discriminate].
Qed.

Lemma is_nan_spec (v : value) : is_nan v = true <-> v = VNumber NaN.
Proof.
  destruct v as [| | |[]| | |]; cbn [is_nan];
    split; (reflexivity || discriminate).
Qed.

Lemma get_five_fields (raw : value) (k : string) :
  get (VObject (map (fun k => (k, get raw k)) auth_fields)) k
  = if mem_string k auth_fields then get raw k else VUndefined.
Proof.
  unfold auth_fields. cbn [map get own_property mem_string].
  repeat match goal with
         | |- context [String.eqb ?a k] =>
             destruct (String.eqb_spec a k) as [<- | _]; cbn [orb]; [reflexivity|]
         end.
  reflexivity.
Qed.

Lemma mem_string_In (k : string) (l : list string) :
  mem_string k l = true <-> In k l.
Proof.
  induction l as [|x l IH]; cbn [mem_string In]; [split; [discriminate | tauto]|].
  now rewrite orb_true_iff, String.eqb_eq, IH.
Qed.

(** C5, amended: the validation of either revision fails exactly when [raw]
    is not a non-null object, or [access_token], [id_token] or
    [refresh_token] is not a string, or [expires_in] is not a number, or
    [token_type] is not exactly ["Bearer"], absent included; [authSchema]
    also refuses [NaN] in [expires_in], which [validateAuth] lets through.
    [validateAuth] throws one of its six schema errors, [authSchema] gives a
    list of issues that is not empty, and the validation step of
    [exchangeCode] throws an error with their text.  Nothing is coerced: a string in [expires_in] is
    refused whatever it spells.  On success [validateAuth] returns [raw]
    itself, and [authSchema] the five fields of [raw] with their values:
    for an input of the documented shape every property reads as in [raw],
    and the data are [raw] itself when its fields come in the order of the
    schema. *)
Theorem validation_rejects_exactly (raw : value) :
  ((exists e, validateAuth raw = inl e) <-> Rejected raw)
  /\ (forall e, validateAuth raw = inl e -> SchemaError e)
  /\ (validateAuth raw = inr raw <-> ~ Rejected raw)
  /\ (forall auth, validateAuth raw = inr auth -> auth = raw)
  /\ (forall digits, get raw "expires_in" = VString digits ->
                     exists e, validateAuth raw = inl e)
  /\ (forall w, validate_response WithValidateAuth raw w = (validateAuth raw, w))
  /\ ((exists issues, safeParse authSchema raw = inl issues)
      <-> Rejected raw \/ get raw "expires_in" = VNumber NaN)
  /\ (forall issues,
        safeParse authSchema raw = inl issues ->
        issues <> []
        /\ forall w,
             validate_response WithAuthSchema raw w
             = (inl (Error ("Returned auth data does not conform to schema: "
                            ++ flattenIssues issues)), w))
  /\ (forall data,
        safeParse authSchema raw = inr data ->
        (forall w, validate_response WithAuthSchema raw w = (inr data, w))
        /\ data = VObject (map (fun k => (k, get raw k)) auth_fields)
        /\ (forall k, In k auth_fields -> get data k = get raw k)
        /\ (documented_shape raw -> forall k, get data k = get raw k)
        /\ (forall props,
              raw = VObject props -> map fst props = auth_fields -> data = raw))
  /\ (forall digits, get raw "expires_in" = VString digits ->
                     exists issues, safeParse authSchema raw = inl issues).
Proof.
  pose proof (validateAuth_cases raw) as Hcases.
  pose proof (rejects_Rejected raw) as Hiff.
  pose proof (authSchema_accepts_exactly raw) as Hzod.
  pose proof (is_nan_spec (get raw "expires_in")) as Hnan.
  assert (Hnum : forall digits, get raw "expires_in" = VString digits ->
                                rejects raw = true).
  { intros digits Hd. apply Hiff. unfold Rejected. rewrite Hd.
    cbn [typeof]. do 3 right. left. discriminate. }
  assert (Hplain :
    ((exists e, validateAuth raw = inl e) <-> Rejected raw)
    /\ (forall e, validateAuth raw = inl e -> SchemaError e)
    /\ (validateAuth raw = inr raw <-> ~ Rejected raw)
    /\ (forall auth, validateAuth raw = inr auth -> auth = raw)
    /\ (forall digits, get raw "expires_in" = VString digits ->
                       exists e, validateAuth raw = inl e)).
  { destruct (rejects raw) eqn:Hr.
    - destruct Hcases as [e [He Hschema]].
      split; [split; [intros _; now apply Hiff | intros _; now exists e]|].
      split; [intros e' He'; congruence|].
      split; [split; [congruence | intros Hn; destruct Hn; now apply Hiff]|].
      split; [intros auth Hauth; congruence|].
      intros _ _. now exists e.
    - assert (Hnot : ~ Rejected raw) by (intros HR; apply Hiff in HR; discriminate).
      split; [split; [intros [e He]; congruence | intros HR; now destruct Hnot]|].
      split; [intros e He; congruence|].
      split; [split; [intros _; exact Hnot | intros _; exact Hcases]|].
      split; [intros auth Hauth; congruence|].
      intros digits Hd. specialize (Hnum digits Hd). discriminate. }
  destruct Hplain as (P1 & P2 & P3 & P4 & P5).
  do 5 (split; [assumption|]).
  split; [intros w; unfold validate_response; now destruct (validateAuth raw)|].
  unfold validate_response.
  destruct (safeParse authSchema raw) as [issues|data] eqn:Hparse.
  - split.
    { split; [|intros _; now exists issues].
      intros _. destruct Hzod as [Hr | Hn]; [left; now apply Hiff | right; now apply Hnan]. }
    split.
    { intros issues' [= <-]. split; [now apply (safeParse_issues raw)|reflexivity]. }
    split; [discriminate|].
    intros _ _. now exists issues.
  - destruct Hzod as (Hr & Hn & ->). split.
    { split; [intros [issues Hi]; discriminate Hi|].
      intros [HR | HN]; [apply Hiff in HR | apply Hnan in HN]; congruence. }
    split; [discriminate|].
    split.
    { intros data' [= <-]. split; [reflexivity|].
      split; [reflexivity|].
      split.
      { intros k Hk. change (get (VObject (map (fun k => (k, get raw k)) auth_fields)) k = get raw k).
        rewrite get_five_fields. apply mem_string_In in Hk. now rewrite Hk. }
      split.
      { intros Hshape k.
        change (get (VObject (map (fun k => (k, get raw k)) auth_fields)) k = get raw k).
        rewrite get_five_fields.
        destruct (mem_string k auth_fields) eqn:Hk; [reflexivity|].
        symmetry. apply Hshape. intros Hin. apply mem_string_In in Hin. congruence. }
      intros props -> Hfields.
      destruct props as [|[k1 v1] [|[k2 v2] [|[k3 v3] [|[k4 v4] [|[k5 v5] [|]]]]]];
        try discriminate Hfields.
      injection Hfields as -> -> -> -> ->. reflexivity. }
    intros digits Hd. specialize (Hnum digits Hd). congruence.
Qed.

End WithMessages.

(** C5, the claim as worded fails twice.  A response of the documented
    shape but without [token_type] meets none of the stated conditions, and
    both validators refuse it.  A response whose [expires_in] is [NaN], a
    number for [typeof], meets none of them either: [validateAuth] returns
    it and [authSchema] refuses it, so no reading of the wording fits
    both. *)
Lemma validation_rejects_outside_wording :
  (~ RejectedAsSpecified auth_without_token_type
   /\ validateAuth auth_without_token_type
      = inl (Error "token_type must be 'Bearer'")
   /\ safeParse (H := Sample.sample_messages) authSchema auth_without_token_type
      = inl [mkIssue ["token_type"] "Invalid"])
  /\ (~ RejectedAsSpecified auth_with_nan
      /\ validateAuth auth_with_nan = inr auth_with_nan
      /\ safeParse (H := Sample.sample_messages) authSchema auth_with_nan
         = inl [mkIssue ["expires_in"] "Invalid"]).
Proof.
  split; (split; [|split; reflexivity]).
  - unfold RejectedAsSpecified, auth_without_token_type.
    cbn [typeof get own_property String.eqb Ascii.eqb Bool.eqb].
    intros [Hc|[Hc|[Hc|[Hc|[Hc|[Hc|[Hc _]]]]]]]; congruence.
  - unfold RejectedAsSpecified, auth_with_nan.
    cbn [typeof get own_property String.eqb Ascii.eqb Bool.eqb].
    intros [Hc|[Hc|[Hc|[Hc|[Hc|[Hc|[_ Hc]]]]]]]; congruence.
Qed.

End SchemaFacts.

(** ** Token exchange and the callback *)

Module CallbackFacts.
Import Js Browser JsString JsStringFacts Encoder Crypto Url UrlFacts Schemas Pkce Views.

Section WithHost.
Context `{Host} `{ZodMessages}.

Lemma validate_response_run rev rawData (w : World) :
  validate_response rev rawData w = (validated rev rawData, w).
Proof.
  unfold validate_response, validated. destruct rev.
  - destruct (safeParse authSchema rawData); reflexivity.
  - destruct (validateAuth rawData); reflexivity.
Qed.

Lemma exchangeCode_run rev (req : ExchangeCode) (w : World) :
  exchangeCode rev req w
  = (exchange_outcome rev (server w (token_request req)),
     emit (EvFetch (token_request req)) w).
Proof.
  unfold exchangeCode, bind, fetch, exchange_outcome, json.
  destruct (server w (token_request req)) as [res|]; [|reflexivity].
  destruct (res_json res) as [rawData|]; [|reflexivity].
  cbn [ret]. destruct (res_ok res); cbn [negb].
  - apply validate_response_run.
  - reflexivity.
Qed.

(** C6: every call of [exchangeCode] sends exactly one request, whatever
    comes back: a POST to [idpUrl ++ "/oauth2/token"] with the header
    [content-type: application/x-www-form-urlencoded] and the body
    [grant_type=authorization_code&client_id=..&code=..&code_verifier=..&redirect_uri=..],
    the values written as they are. *)
Theorem exchangeCode_single_post rev (req : ExchangeCode) (w : World) :
  log (snd (exchangeCode rev req w))
  = (log w ++
     [EvFetch
        {| req_url := xc_idpUrl req ++ "/oauth2/token";
           req_method := "POST";
           req_headers := [("content-type", "application/x-www-form-urlencoded")];
           req_body :=
             "grant_type=authorization_code&client_id=" ++ xc_clientId req
             ++ "&code=" ++ xc_code req
             ++ "&code_verifier=" ++ xc_codeVerifier req
             ++ "&redirect_uri=" ++ xc_redirectUri req |}])%list.
Proof.
  rewrite exchangeCode_run. cbn [snd log emit]. reflexivity.
Qed.

Lemma handleCallback_run rev (params : HandleCallback) (w : World) :
  handleCallback rev params w =
  if falsy (callback_state w) || falsy (callback_code w)
  then (inl MissingParameterError, w)
  else
    match callback_state w, callback_code w with
    | Some state, Some code =>
        if falsy (sessionStorage w !! state)
        then (inl MissingVerifierError, after_consume state w)
        else
          match sessionStorage w !! state with
          | Some codeVerifier =>
              exchangeCode rev (exchange_request params code codeVerifier)
                (after_consume state w)
          | None => (inl MissingVerifierError, after_consume state w)
          end
    | _, _ => (inl MissingParameterError, w)
    end.
Proof.
  unfold handleCallback, bind, read_location_search, callback_state, callback_code.
  cbn beta iota.
  destruct (URLSearchParams_get _ "state") as [state|];
    destruct (URLSearchParams_get _ "code") as [code|]; try reflexivity.
  - destruct (falsy (Some state) || falsy (Some code)); [reflexivity|].
    unfold getItem, removeItem, after_consume. cbn beta iota.
    cbn [sessionStorage emit].
    destruct (sessionStorage w !! state) as [codeVerifier|]; [|reflexivity].
    destruct (falsy (Some codeVerifier)); reflexivity.
  - cbn [falsy orb]. now rewrite orb_true_r.
Qed.

Lemma falsy_empty (v : option string) :
  falsy v = true <-> v = None \/ v = Some "".
Proof.
  destruct v as [[|c s]|]; cbn [falsy nonempty negb].
  - split; [intros _; now right | reflexivity].
  - split; [discriminate | intros [Hc|Hc]; discriminate Hc].
  - split; [intros _; now left | reflexivity].
Qed.

Lemma falsy_filled (s : string) : s <> "" -> falsy (Some s) = false.
Proof. destruct s; [congruence | reflexivity]. Qed.

(** C10: a [code] or [state] that is in the query string but empty makes
    [handleCallback] throw the error it throws for an absent one, and the
    world is left as it was: no storage event is logged and the store is
    untouched. *)
Theorem handleCallback_empty_parameter rev (params : HandleCallback) (w : World) :
  callback_code w = Some "" \/ callback_state w = Some "" ->
  handleCallback rev params w = (inl (Error "Missing state or code"), w)
  /\ log (snd (handleCallback rev params w)) = log w
  /\ sessionStorage (snd (handleCallback rev params w)) = sessionStorage w
  /\ (forall w0,
        callback_code w0 = None \/ callback_state w0 = None ->
        fst (handleCallback rev params w0) = inl (Error "Missing state or code")).
Proof.
  intros Hempty.
  assert (Hrun : handleCallback rev params w
                 = (inl (Error "Missing state or code"), w)).
  { rewrite handleCallback_run.
    destruct Hempty as [-> | ->]; cbn [falsy nonempty negb orb];
      [now rewrite orb_true_r | reflexivity]. }
  rewrite Hrun. repeat split.
  intros w0 Habsent. rewrite handleCallback_run.
  destruct Habsent as [-> | ->]; cbn [falsy orb];
    [now rewrite orb_true_r | reflexivity].
Qed.

(** Past the guard: the world and the result of [handleCallback] when both
    parameters are filled in. *)
Lemma handleCallback_filled rev (params : HandleCallback) (w : World) code state :
  callback_code w = Some code -> callback_state w = Some state ->
  code <> "" -> state <> "" ->
  handleCallback rev params w =
  match sessionStorage w !! state with
  | Some codeVerifier =>
      if nonempty codeVerifier
      then
        (exchange_outcome rev
           (server w (token_request (exchange_request params code codeVerifier))),
         emit (EvFetch (token_request (exchange_request params code codeVerifier)))
           (after_consume state w))
      else (inl MissingVerifierError, after_consume state w)
  | None => (inl MissingVerifierError, after_consume state w)
  end.
Proof.
  intros Hcode Hstate Hc Hs. rewrite handleCallback_run, Hcode, Hstate.
  rewrite (falsy_filled _ Hc), (falsy_filled _ Hs). cbn [orb].
  destruct (sessionStorage w !! state) as [codeVerifier|]; [|reflexivity].
  cbn [falsy]. destruct (nonempty codeVerifier); cbn [negb]; [|reflexivity].
  rewrite exchangeCode_run. reflexivity.
Qed.

(** C3, amended: when [code] and [state] are in the query string and not
    empty, [handleCallback] removes the entry under [state] and nothing
    else, right after reading it and before any request, whether or not a
    verifier was there and whatever the exchange gives; a second
    [handleCallback] on the same page then finds no verifier. *)
Theorem handleCallback_consumes_verifier
    rev (params : HandleCallback) (w : World) (code state : string) :
  callback_code w = Some code -> callback_state w = Some state ->
  code <> "" -> state <> "" ->
  let w' := snd (handleCallback rev params w) in
  sessionStorage w' = delete state (sessionStorage w)
  /\ sessionStorage w' !! state = None
  /\ (exists rest,
        log w' = (log w ++ EvGetItem state :: EvRemoveItem state :: rest)%list
        /\ (rest = [] \/ exists req, rest = [EvFetch req]))
  /\ fst (handleCallback rev params w') = inl (Error "Missing state").
Proof.
  intros Hcode Hstate Hc Hs w'.
  assert (Hw' : w' = after_consume state w
                \/ exists req, w' = emit (EvFetch req) (after_consume state w)).
  { unfold w'. rewrite (handleCallback_filled rev params w code state) by assumption.
    destruct (sessionStorage w !! state) as [codeVerifier|]; [|now left].
    destruct (nonempty codeVerifier); [right; eexists; reflexivity | now left]. }
  assert (Hstore : sessionStorage w' = delete state (sessionStorage w))
    by (destruct Hw' as [-> | [req ->]]; reflexivity).
  assert (Hsearch : location_search w' = location_search w)
    by (destruct Hw' as [-> | [req ->]]; reflexivity).
  split; [exact Hstore|].
  split; [rewrite Hstore; apply lookup_delete_eq|].
  split.
  { destruct Hw' as [-> | [req ->]].
    - exists []. split; [|now left].
      cbn [log emit after_consume with_storage]. now rewrite <- app_assoc.
    - exists [EvFetch req]. split; [|right; now exists req].
      cbn [log emit after_consume with_storage]. now rewrite <- !app_assoc. }
  rewrite (handleCallback_filled rev params w' code state); try assumption.
  - rewrite Hstore, lookup_delete_eq. reflexivity.
  - unfold callback_code. now rewrite Hsearch.
  - unfold callback_state. now rewrite Hsearch.
Qed.

Lemma error_message_differs (prefix rest other : string) (c d : ascii) :
  c <> d -> Error (String c prefix ++ rest) <> Error (String d other).
Proof. intros Hcd [= Heq _]. contradiction. Qed.

(** C4, amended: [handleCallback] throws [Missing state or code] when
    [code] or [state] is absent from the query string or empty; [Missing
    state] when both are filled in and the store has no verifier, or an
    empty one, under [state]; and, with a non-empty verifier, when the token
    endpoint answers a non-success status with a JSON body,
    [Error exchanging code: ] followed by that body serialised.  The three
    errors differ from each other, and a value is returned only when none of
    them occurred: the endpoint answered with success and a JSON body that
    passed validation. *)
Theorem handleCallback_failure_modes rev (params : HandleCallback) (w : World) :
  (callback_code w = None \/ callback_code w = Some ""
   \/ callback_state w = None \/ callback_state w = Some "" ->
   fst (handleCallback rev params w) = inl MissingParameterError)
  /\ (forall code state,
        callback_code w = Some code -> callback_state w = Some state ->
        code <> "" -> state <> "" ->
        (sessionStorage w !! state = None \/ sessionStorage w !! state = Some "" ->
         fst (handleCallback rev params w) = inl MissingVerifierError)
        /\ (forall codeVerifier res body,
              sessionStorage w !! state = Some codeVerifier ->
              codeVerifier <> "" ->
              server w (token_request (exchange_request params code codeVerifier))
              = Some res ->
              res_ok res = false -> res_json res = Some body ->
              fst (handleCallback rev params w) = inl (TransportError body)))
  /\ (MissingParameterError <> MissingVerifierError
      /\ forall body, TransportError body <> MissingParameterError
                      /\ TransportError body <> MissingVerifierError)
  /\ (forall auth,
        fst (handleCallback rev params w) = inr auth ->
        exists code state codeVerifier res rawData,
          callback_code w = Some code /\ code <> ""
          /\ callback_state w = Some state /\ state <> ""
          /\ sessionStorage w !! state = Some codeVerifier /\ codeVerifier <> ""
          /\ server w (token_request (exchange_request params code codeVerifier))
             = Some res
          /\ res_ok res = true /\ res_json res = Some rawData
          /\ validated rev rawData = inr auth).
Proof.
  split.
  { intros Hmissing. rewrite handleCallback_run.
    assert (Hf : falsy (callback_state w) || falsy (callback_code w) = true).
    { apply orb_true_iff. rewrite !falsy_empty. tauto. }
    now rewrite Hf. }
  split.
  { intros code state Hcode Hstate Hc Hs.
    rewrite (handleCallback_filled rev params w code state) by assumption.
    split.
    - intros [-> | ->]; reflexivity.
    - intros codeVerifier res body -> Hv Hres Hok Hbody.
      destruct codeVerifier as [|c v]; [congruence|]. cbn [nonempty fst].
      rewrite Hres. unfold exchange_outcome. now rewrite Hbody, Hok. }
  split.
  { split; [discriminate|]. intros body.
    split; apply error_message_differs; discriminate. }
  intros auth Hauth. rewrite handleCallback_run in Hauth.
  destruct (callback_state w) as [state|] eqn:Hstate; [|discriminate Hauth].
  destruct (callback_code w) as [code|] eqn:Hcode;
    [|cbn [falsy] in Hauth; rewrite orb_true_r in Hauth; discriminate Hauth].
  destruct state as [|s0 state]; [discriminate Hauth|].
  destruct code as [|c0 code]; [discriminate Hauth|].
  cbn [falsy nonempty negb orb] in Hauth.
  destruct (sessionStorage w !! String s0 state) as [[|v0 v]|] eqn:Hstore;
    cbn [falsy nonempty negb fst] in Hauth; try discriminate Hauth.
  rewrite exchangeCode_run in Hauth. cbn [fst] in Hauth.
  change (server (after_consume (String s0 state) w)) with (server w) in Hauth.
  unfold exchange_outcome in Hauth.
  destruct (server w _) as [res|] eqn:Hres; [|discriminate Hauth].
  destruct (res_json res) as [rawData|] eqn:Hjson; [|discriminate Hauth].
  destruct (res_ok res) eqn:Hok; [|discriminate Hauth].
  exists (String c0 code), (String s0 state), (String v0 v), res, rawData.
  repeat split; try assumption; try discriminate; reflexivity.
Qed.

(** X11, the hand-off across the redirect: on the page the identity provider
    sends the browser back to, with the [state] of the login and a [code],
    and with the store [redirectToLogin] left, [handleCallback] reads and
    removes the verifier and sends it with the code, which it has read as
    UTF-8 ([utf8_decode code] is [code] itself whenever [code] is the UTF-8
    of a string, [utf8_decode_encode]). *)
Lemma callback_after_login rev (login : RedirectToLogin) (params : HandleCallback)
    (w : World) (u : URL) (code : string) :
  let ch := challenge_of w in
  let w1 := snd (redirectToLogin login w) in
  let back :=
    mkWorld (sessionStorage w1)
      ("?" ++ URLSearchParams_toString [("code", code); ("state", state ch)])
      (entropy w1) (server w1) [] in
  storage_has_room (sessionStorage w) (state ch) (codeVerifier ch) = true ->
  URL_parse (default "/login" (login_path login)) (login_idpUrl login) = Some u ->
  code <> "" -> state ch <> "" -> codeVerifier ch <> "" ->
  log (snd (handleCallback rev params back))
  = [ EvGetItem (state ch); EvRemoveItem (state ch);
      EvFetch (token_request
                 (exchange_request params (utf8_decode code) (codeVerifier ch))) ]
  /\ sessionStorage (snd (handleCallback rev params back)) !! state ch = None.
Proof.
  intros ch w1 back Hroom Hurl Hcode Hstate Hverifier.
  assert (Hw1 : sessionStorage w1
                = <[state ch := codeVerifier ch]> (sessionStorage w)).
  { unfold w1. rewrite RedirectFacts.redirectToLogin_run. cbv zeta. fold ch.
    now rewrite Hroom, Hurl. }
  assert (Hquery : URLSearchParams_of_string (location_search back)
                   = [("code", utf8_decode code); ("state", state ch)]).
  { unfold back. cbn [location_search]. unfold URLSearchParams_of_string.
    rewrite append_cons, append_nil. cbn [strip_question_mark].
    rewrite urlencoded_parse_toString. cbn [map fst snd].
    now rewrite (utf8_decode_unreserved (state ch)
                   (CryptoFacts.nonce_unreserved _)). }
  rewrite (handleCallback_filled rev params back (utf8_decode code) (state ch));
    try assumption; [| | | now apply utf8_decode_nonempty].
  - change (sessionStorage back) with (sessionStorage w1).
    rewrite Hw1, lookup_insert_eq.
    destruct (codeVerifier ch) as [|c v] eqn:Hv; [congruence|].
    cbn [nonempty snd log emit after_consume with_storage sessionStorage].
    split; [reflexivity|]. apply lookup_delete_eq.
  - unfold callback_code. rewrite Hquery. reflexivity.
  - unfold callback_state. rewrite Hquery. reflexivity.
Qed.

End WithHost.
End CallbackFacts.

(** ** The flow on sample pages *)

Module Runs.
Import Js Browser JsString Encoder Crypto Url Schemas Pkce Sample Views.
Import RedirectFacts CallbackFacts.

(** C3, the claim as worded fails: on the page [?code=&state=abc] both
    parameters are in the query string, and the verifier stored under
    [abc] is still there after [handleCallback]. *)
Lemma handleCallback_keeps_verifier_when_code_is_empty :
  callback_code (page "?code=&state=abc" {[ "abc" := "verifier" ]} server_ok)
  = Some ""
  /\ callback_state (page "?code=&state=abc" {[ "abc" := "verifier" ]} server_ok)
     = Some "abc"
  /\ sessionStorage
       (snd (handleCallback WithAuthSchema sample_callback
               (page "?code=&state=abc" {[ "abc" := "verifier" ]} server_ok)))
     !! "abc" = Some "verifier".
Proof. repeat split; vm_compute; reflexivity. Qed.

(** C3, amended, on the page [?code=abc123&state=xyz] with a verifier
    stored under [xyz] and a token endpoint that answers 400. *)
Lemma handleCallback_consumes_verifier_witness :
  sessionStorage
    (snd (handleCallback WithAuthSchema sample_callback
            (page "?code=abc123&state=xyz" {[ "xyz" := "verifier" ]}
               server_400_json)))
  !! "xyz" = None.
Proof.
  refine (proj1 (proj2
    (handleCallback_consumes_verifier WithAuthSchema sample_callback
       (page "?code=abc123&state=xyz" {[ "xyz" := "verifier" ]} server_400_json)
       "abc123" "xyz" _ _ _ _))).
  - vm_compute; reflexivity.
  - vm_compute; reflexivity.
  - discriminate.
  - discriminate.
Defined.

(** C4, the claim as worded fails in three places: with [code] present but
    empty and no verifier stored the error is the missing-parameter one,
    not the missing-verifier one; with a verifier found and a 400 answer
    whose body is not JSON the error is the [SyntaxError] of [res.json()];
    and an empty string found under [state] is taken for no verifier. *)
Lemma handleCallback_other_failures :
  (callback_code (page "?code=&state=abc" ∅ server_ok) = Some ""
   /\ callback_state (page "?code=&state=abc" ∅ server_ok) = Some "abc"
   /\ fst (handleCallback WithAuthSchema sample_callback
             (page "?code=&state=abc" ∅ server_ok))
      = inl (Error "Missing state or code"))
  /\ fst (handleCallback WithAuthSchema sample_callback
            (page "?code=abc123&state=xyz" {[ "xyz" := "verifier" ]}
               server_400_text))
     = inl SyntaxError
  /\ fst (handleCallback WithAuthSchema sample_callback
            (page "?code=abc123&state=xyz" {[ "xyz" := "" ]} server_400_json))
     = inl (Error "Missing state").
Proof. repeat split; vm_compute; reflexivity. Qed.

(** C7 on a sample page: the events of the call, the URL spelled out. *)
Lemma redirectToLogin_authorization_url_witness :
  log (snd (redirectToLogin sample_login (page "" ∅ server_ok)))
  = [ EvSetItem
        "3b49576573778a9ba7b3c0cddee4f003061824324154596b77868d95a9b9c6d5"
        "586372849299a4b8c7d2d4e8fa060e212f35464f566a74858fa2aabac2d1dfe5";
      EvNavigate
        ("https://idp.example/login?response_type=code&scope=openid"
         ++ "&state=3b49576573778a9ba7b3c0cddee4f003061824324154596b77868d95a9b9c6d5"
         ++ "&client_id=client+1"
         ++ "&code_challenge=9QUQGiszRk9hZ3uIvZ3Yu_PUDukoBUMjXmZCVVyeeIQ"
         ++ "&code_challenge_method=S256"
         ++ "&redirect_uri=https%3A%2F%2Fapp.example%2Fcb%3Fx%3D1") ].
Proof.
  destruct (redirectToLogin_authorization_url (H := sample_host)
              sample_login (page "" ∅ server_ok)
              (mkURL true "https://idp.example/login" None None))
    as [_ [Hrun _]].
  - reflexivity.
  - reflexivity.
  - rewrite Hrun. vm_compute. reflexivity.
Defined.

(** C10 on the page [?code=&state=abc]: the stored verifier stays. *)
Lemma handleCallback_empty_parameter_witness :
  handleCallback WithValidateAuth sample_callback
    (page "?code=&state=abc" {[ "abc" := "verifier" ]} server_ok)
  = (inl (Error "Missing state or code"),
     page "?code=&state=abc" {[ "abc" := "verifier" ]} server_ok).
Proof.
  refine (proj1
    (handleCallback_empty_parameter WithValidateAuth sample_callback
       (page "?code=&state=abc" {[ "abc" := "verifier" ]} server_ok) _)).
  left. vm_compute. reflexivity.
Defined.

(** The failure modes and the happy path of the specification's tests. *)
Example callback_without_code :
  fst (handleCallback WithAuthSchema sample_callback
         (page "?state=xyz" {[ "xyz" := "verifier" ]} server_ok))
  = inl MissingParameterError.
Proof. vm_compute. reflexivity. Qed.

Example callback_without_verifier :
  fst (handleCallback WithAuthSchema sample_callback
         (page "?code=abc123&state=xyz" ∅ server_ok))
  = inl MissingVerifierError.
Proof. vm_compute. reflexivity. Qed.

Example callback_http_400 :
  fst (handleCallback WithAuthSchema sample_callback
         (page "?code=abc123&state=xyz" {[ "xyz" := "verifier" ]} server_400_json))
  = inl (TransportError (VString "invalid_grant")).
Proof. vm_compute. reflexivity. Qed.

Example callback_happy_path rev :
  handleCallback rev sample_callback
    (page "?code=abc123&state=xyz" {[ "xyz" := "verifier" ]} server_ok)
  = (inr sample_auth,
     mkWorld ∅ "?code=abc123&state=xyz" sample_entropy server_ok
       [ EvGetItem "xyz"; EvRemoveItem "xyz";
         EvFetch
           {| req_url := "https://idp.example/oauth2/token";
              req_method := "POST";
              req_headers := [("content-type", "application/x-www-form-urlencoded")];
              req_body :=
                "grant_type=authorization_code&client_id=client1&code=abc123"
                ++ "&code_verifier=verifier&redirect_uri=https://app.example/cb" |} ]).
Proof. destruct rev; vm_compute; reflexivity. Qed.

(** A [state] and a [code] that are no UTF-8 reach the code as U+FFFD: the
    verifier stored under U+FFFD is the one read, removed and sent, with the
    code U+FFFD. *)
Example callback_not_utf8 rev :
  callback_state (page "?code=%FF&state=%FF" {[ replaced "" := "verifier" ]} server_ok)
  = Some (replaced "")
  /\ handleCallback rev sample_callback
       (page "?code=%FF&state=%FF" {[ replaced "" := "verifier" ]} server_ok)
     = (inr sample_auth,
        mkWorld ∅ "?code=%FF&state=%FF" sample_entropy server_ok
          [ EvGetItem (replaced ""); EvRemoveItem (replaced "");
            EvFetch
              {| req_url := "https://idp.example/oauth2/token";
                 req_method := "POST";
                 req_headers :=
                   [("content-type", "application/x-www-form-urlencoded")];
                 req_body :=
                   "grant_type=authorization_code&client_id=client1&code="
                   ++ replaced
                        "&code_verifier=verifier&redirect_uri=https://app.example/cb"
              |} ]).
Proof. split; destruct rev; vm_compute; reflexivity. Qed.

End Runs.

(** ** More on the encoder *)

Module EncoderShape.
Import JsString JsStringFacts Js Encoder Views Shapes.

Lemma nopad_length (octets : list N) :
  String.length (base64url_nopad octets) = ((4 * List.length octets + 2) / 3)%nat.
Proof.
  induction octets as [|a|a b|a b c l IH] using EncoderFacts.list_ind3;
    try reflexivity.
  cbn [base64url_nopad String.length List.length]. rewrite IH.
  replace (4 * S (S (S (List.length l))) + 2)%nat
    with (4 * List.length l + 2 + 4 * 3)%nat by lia.
  rewrite Nat.div_add by lia. lia.
Qed.

Lemma url_char_in_alphabet n :
  n < 64 -> in_alphabet base64url_alphabet (char_at base64url_alphabet n) = true.
Proof.
  intros Hn. unfold in_alphabet.
  change (index_of (char_at base64url_alphabet n) base64url_alphabet)
    with (sextet_of (char_at base64url_alphabet n)).
  now rewrite EncoderFacts.sextet_of_char_at.
Qed.

(** X1: the text [arrayBufferToBase64] returns for [n] octets has
    [(4 n + 2) / 3] characters, rounded down, and every one of them is a
    character of the URL-safe alphabet [A-Z a-z 0-9 - _]. *)
Theorem arrayBufferToBase64_length_and_alphabet (buffer : list byte) :
  exists text,
    arrayBufferToBase64 buffer = inr text
    /\ String.length text = ((4 * List.length buffer + 2) / 3)%nat
    /\ all_chars (in_alphabet base64url_alphabet) text = true.
Proof.
  exists (base64url_nopad (map fromCharCode buffer)).
  split; [apply EncoderFacts.encode_refines|].
  split.
  - now rewrite nopad_length, length_map.
  - apply EncoderFacts.encode_chars, url_char_in_alphabet.
Qed.

(** X2: [arrayBufferToBase64] is injective: two buffers have the same text
    exactly when they are the same buffer. *)
Theorem arrayBufferToBase64_injective (buffer1 buffer2 : list byte) :
  arrayBufferToBase64 buffer1 = arrayBufferToBase64 buffer2 <-> buffer1 = buffer2.
Proof.
  split; [|now intros ->].
  rewrite !EncoderFacts.encode_refines. intros [= Htext].
  pose proof (EncoderFacts.decode_nopad buffer1) as H1.
  rewrite Htext, EncoderFacts.decode_nopad in H1. now injection H1.
Qed.

End EncoderShape.

(** ** More on the nonce and the challenge *)

Module NonceFacts.
Import Js Browser JsString JsStringFacts Encoder Crypto Url Views Shapes.

Lemma hex_octet_shape (b : byte) :
  exists h l,
    hex_octet b = String h (String l "")
    /\ unhex_octet h l = Some b
    /\ is_lower_hex h = true /\ is_lower_hex l = true.
Proof. destruct b; do 2 eexists; repeat split. Qed.

Lemma join_empty_cons (x : string) (rest : list string) :
  join "" (x :: rest) = x ++ join "" rest.
Proof.
  destruct rest as [|y rest]; [|reflexivity].
  cbn [join]. induction x as [|c x IH]; [reflexivity|].
  now rewrite append_cons, <- IH.
Qed.

Lemma hex_length (hash : list byte) :
  String.length (join "" (map hex_octet hash)) = (2 * List.length hash)%nat.
Proof.
  induction hash as [|b hash IH]; [reflexivity|].
  cbn [map]. rewrite join_empty_cons.
  destruct (hex_octet_shape b) as [h [l [-> _]]].
  rewrite !append_cons, append_nil. cbn [String.length List.length].
  rewrite IH. lia.
Qed.

Lemma hex_digits (hash : list byte) :
  all_chars is_lower_hex (join "" (map hex_octet hash)) = true.
Proof.
  induction hash as [|b hash IH]; [reflexivity|].
  cbn [map]. rewrite join_empty_cons.
  destruct (hex_octet_shape b) as [h [l [-> [_ [Hh Hl]]]]].
  rewrite !append_cons, append_nil. cbn [all_chars].
  now rewrite Hh, Hl, IH.
Qed.

Lemma unhex_hex (hash : list byte) :
  unhex (join "" (map hex_octet hash)) = Some hash.
Proof.
  induction hash as [|b hash IH]; [reflexivity|].
  cbn [map]. rewrite join_empty_cons.
  destruct (hex_octet_shape b) as [h [l [-> [Hb _]]]].
  rewrite !append_cons, append_nil. cbn [unhex].
  now rewrite Hb, IH.
Qed.

Lemma decimal_no_comma (d : Decimal.uint) :
  all_chars (is_not ",") (DecimalString.NilEmpty.string_of_uint d) = true.
Proof. induction d; cbn [DecimalString.NilEmpty.string_of_uint all_chars]; auto. Qed.

Lemma toString10_no_comma (n : N) : all_chars (is_not ",") (toString10 n) = true.
Proof.
  unfold toString10, DecimalString.NilZero.string_of_uint.
  destruct (N.to_uint n); try reflexivity; apply decimal_no_comma.
Qed.

Lemma toString10_nonempty (n : N) : nonempty (toString10 n) = true.
Proof.
  unfold toString10, DecimalString.NilZero.string_of_uint.
  destruct (N.to_uint n); reflexivity.
Qed.

Lemma to_uint_nonnil (n : N) : N.to_uint n <> Decimal.Nil.
Proof.
  destruct n as [|p]; [discriminate|].
  apply DecimalPos.Unsigned.to_uint_nonnil.
Qed.

Lemma toString10_inj (n m : N) : toString10 n = toString10 m -> n = m.
Proof.
  unfold toString10. intros Heq.
  apply DecimalN.Unsigned.to_uint_inj.
  pose proof (DecimalString.NilZero.usu _ (to_uint_nonnil n)) as Hn.
  rewrite Heq, (DecimalString.NilZero.usu _ (to_uint_nonnil m)) in Hn.
  now injection Hn.
Qed.

Lemma join_nonempty sep (piece : string) (pieces : list string) :
  nonempty piece = true -> nonempty (join sep (piece :: pieces)) = true.
Proof.
  intros Hp. destruct piece as [|c piece]; [discriminate Hp|].
  destruct pieces; reflexivity.
Qed.

Lemma join_comma_inj (l1 l2 : list string) :
  Forall (fun p => all_chars (is_not ",") p = true /\ nonempty p = true) l1 ->
  Forall (fun p => all_chars (is_not ",") p = true /\ nonempty p = true) l2 ->
  join "," l1 = join "," l2 -> l1 = l2.
Proof.
  intros H1 H2 Heq.
  destruct H1 as [|p1 l1 [Hc1 Hn1] H1], H2 as [|p2 l2 [Hc2 Hn2] H2].
  - reflexivity.
  - pose proof (join_nonempty "," p2 l2 Hn2) as Hne.
    rewrite <- Heq in Hne. discriminate Hne.
  - pose proof (join_nonempty "," p1 l1 Hn1) as Hne.
    rewrite Heq in Hne. discriminate Hne.
  - assert (Hs1 : split_on "," (join "," (p1 :: l1)) = p1 :: l1).
    { apply UrlFacts.split_on_join. constructor; [exact Hc1|].
      eapply Forall_impl; [exact H1|]. now intros x [Hx _]. }
    assert (Hs2 : split_on "," (join "," (p2 :: l2)) = p2 :: l2).
    { apply UrlFacts.split_on_join. constructor; [exact Hc2|].
      eapply Forall_impl; [exact H2|]. now intros x [Hx _]. }
    congruence.
Qed.

Lemma decimal_pieces (words : list N) :
  Forall (fun p => all_chars (is_not ",") p = true /\ nonempty p = true)
    (map toString10 words).
Proof.
  induction words as [|n words IH]; constructor; [|exact IH].
  split; [apply toString10_no_comma | apply toString10_nonempty].
Qed.

Lemma Uint32Array_toString_inj (ws1 ws2 : list N) :
  Uint32Array_toString ws1 = Uint32Array_toString ws2 -> ws1 = ws2.
Proof.
  unfold Uint32Array_toString. intros Heq.
  apply join_comma_inj in Heq; try apply decimal_pieces.
  revert ws2 Heq. induction ws1 as [|n ws1 IH]; intros [|m ws2] Heq;
    try discriminate Heq; [reflexivity|].
  cbn [map] in Heq. injection Heq as Hn Hrest.
  f_equal; [now apply toString10_inj | now apply IH].
Qed.

Lemma TextEncoder_encode_inj (s t : string) :
  TextEncoder_encode s = TextEncoder_encode t -> s = t.
Proof.
  unfold TextEncoder_encode. intros Heq.
  rewrite <- (string_of_list_byte_of_string s), Heq.
  apply string_of_list_byte_of_string.
Qed.

Section WithHost.
Context `{Host}.

Lemma nonce_of_hex (words : list N) :
  nonce_of words = join "" (map hex_octet (sha256 (Uint32Array_toString words))).
Proof. unfold nonce_of. now rewrite map_map. Qed.

(** X3: [generateNonce] never throws; its nonce has two lower-case
    hexadecimal digits for every octet of the digest (sixty-four for a
    digest of thirty-two octets); the call takes four words from the random
    source and changes nothing else of the world. *)
Theorem generateNonce_hexadecimal (w : World) :
  exists nonce,
    generateNonce w
    = (inr nonce, with_entropy (fun i => entropy w (4 + i)%nat) w)
    /\ String.length nonce
       = (2 * List.length
                (sha256 (Uint32Array_toString (drawn_words w 0))))%nat
    /\ all_chars is_lower_hex nonce = true.
Proof.
  exists (nonce_of (drawn_words w 0)).
  split; [apply CryptoFacts.generateNonce_run|].
  rewrite nonce_of_hex. split; [apply hex_length | apply hex_digits].
Qed.

(** X4: nothing is lost around the digest in [generateNonce].  Two calls
    return the same nonce exactly when the digests they computed are the
    same (the hexadecimal text can be read back), and the octets they hashed
    are the same exactly when the four words they drew are the same modulo
    [2^32] (the decimal, comma-separated text of the array can be read
    back). *)
Theorem generateNonce_lossless (w1 w2 : World) :
  let text1 := Uint32Array_toString (drawn_words w1 0) in
  let text2 := Uint32Array_toString (drawn_words w2 0) in
  (fst (generateNonce w1) = fst (generateNonce w2)
   <-> sha256 text1 = sha256 text2)
  /\ (TextEncoder_encode text1 = TextEncoder_encode text2
      <-> drawn_words w1 0 = drawn_words w2 0).
Proof.
  intros text1 text2. split.
  - rewrite !CryptoFacts.generateNonce_run. cbn [fst].
    rewrite !nonce_of_hex. fold text1 text2. split.
    + intros [= Hhex].
      pose proof (unhex_hex (sha256 text1)) as H1.
      rewrite Hhex, unhex_hex in H1. now injection H1.
    + now intros ->.
  - split.
    + intros Heq%TextEncoder_encode_inj. now apply Uint32Array_toString_inj.
    + unfold text1, text2. now intros ->.
Qed.

(** X5: [getChallenge] never throws, leaves the store, the log and the
    page as they were, and advances the random source by exactly eight
    words: a second call right after it builds its [state] from words 8 to
    11 and its [codeVerifier] from words 12 to 15 of the source. *)
Theorem getChallenge_draws_eight_words (w : World) :
  exists ch w',
    getChallenge w = (inr ch, w')
    /\ sessionStorage w' = sessionStorage w
    /\ log w' = log w
    /\ location_search w' = location_search w
    /\ (forall i, entropy w' i = entropy w (8 + i)%nat)
    /\ exists ch2 w'',
         getChallenge w' = (inr ch2, w'')
         /\ state ch2 = nonce_of (drawn_words w 8)
         /\ codeVerifier ch2 = nonce_of (drawn_words w 12).
Proof.
  exists (challenge_of w), (with_entropy (fun i => entropy w (4 + (4 + i))%nat) w).
  split; [apply CryptoFacts.getChallenge_run|].
  do 4 (split; [reflexivity|]).
  eexists _, _. split; [apply CryptoFacts.getChallenge_run|].
  split; reflexivity.
Qed.

(** X6: with a digest of thirty-two octets, as SHA-256 gives, the
    challenge has the shape RFC 7636 asks for: [state] and [codeVerifier]
    are sixty-four lower-case hexadecimal digits each, and [codeChallenge]
    is forty-three characters of the URL-safe alphabet. *)
Theorem getChallenge_shape (w : World) :
  (forall input, List.length (subtle_digest_SHA256 input) = 32%nat) ->
  exists ch w',
    getChallenge w = (inr ch, w')
    /\ String.length (state ch) = 64%nat
    /\ all_chars is_lower_hex (state ch) = true
    /\ String.length (codeVerifier ch) = 64%nat
    /\ all_chars is_lower_hex (codeVerifier ch) = true
    /\ String.length (codeChallenge ch) = 43%nat
    /\ all_chars (in_alphabet base64url_alphabet) (codeChallenge ch) = true.
Proof.
  intros Hdigest.
  exists (challenge_of w), (with_entropy (fun i => entropy w (4 + (4 + i))%nat) w).
  split; [apply CryptoFacts.getChallenge_run|].
  cbn [state codeVerifier codeChallenge challenge_of].
  rewrite !nonce_of_hex, !hex_length. unfold sha256. rewrite !Hdigest.
  split; [reflexivity|]. split; [apply hex_digits|].
  split; [reflexivity|]. split; [apply hex_digits|].
  split.
  - rewrite EncoderShape.nopad_length, length_map, Hdigest. reflexivity.
  - apply EncoderFacts.encode_chars, EncoderShape.url_char_in_alphabet.
Qed.

End WithHost.
End NonceFacts.

(** ** More on the login redirect *)

Module LoginFacts.
Import Js Browser JsString JsStringFacts Encoder Crypto Url UrlFacts Schemas Pkce.
Import Views Shapes.

Section WithHost.
Context `{Host}.

(** X7: when [new URL(path, idpUrl)] throws, [redirectToLogin] has already
    stored the verifier: the call fails with the [TypeError], nothing is
    navigated to, and the entry under [state] stays in the store. *)
Theorem redirectToLogin_invalid_url (params : RedirectToLogin) (w : World) :
  let ch := challenge_of w in
  storage_has_room (sessionStorage w) (state ch) (codeVerifier ch) = true ->
  URL_parse (default "/login" (login_path params)) (login_idpUrl params) = None ->
  (exists what, fst (redirectToLogin params w) = inl (TypeError what))
  /\ log (snd (redirectToLogin params w))
     = (log w ++ [EvSetItem (state ch) (codeVerifier ch)])%list
  /\ sessionStorage (snd (redirectToLogin params w)) !! state ch
     = Some (codeVerifier ch)
  /\ fst (getChallenge w) = inr ch.
Proof.
  intros ch Hroom Hurl. rewrite RedirectFacts.redirectToLogin_run.
  cbv zeta. fold ch. rewrite Hroom, Hurl.
  split; [eexists; reflexivity|]. split; [reflexivity|].
  split; [apply lookup_insert_eq|].
  now rewrite CryptoFacts.getChallenge_run.
Qed.

(** X8: when the store refuses the write, [redirectToLogin] fails with the
    [QuotaExceededError] before it looks at the URL: nothing is logged,
    nothing is navigated to and the store is as it was. *)
Theorem redirectToLogin_store_full (params : RedirectToLogin) (w : World) :
  let ch := challenge_of w in
  storage_has_room (sessionStorage w) (state ch) (codeVerifier ch) = false ->
  fst (redirectToLogin params w) = inl QuotaExceededError
  /\ log (snd (redirectToLogin params w)) = log w
  /\ sessionStorage (snd (redirectToLogin params w)) = sessionStorage w
  /\ fst (getChallenge w) = inr ch.
Proof.
  intros ch Hroom. rewrite RedirectFacts.redirectToLogin_run.
  cbv zeta. fold ch. rewrite Hroom. repeat split.
  now rewrite CryptoFacts.getChallenge_run.
Qed.

Lemma redirectToLogin_touches (params : RedirectToLogin) (w : World) (key : string) :
  let ch := challenge_of w in
  let w' := snd (redirectToLogin params w) in
  (sessionStorage w' !! key = sessionStorage w !! key
   \/ (key = state ch /\ sessionStorage w' !! key = Some (codeVerifier ch)))
  /\ forallb (fun e => negb (is_storage_read e || is_fetch e)) (events_since w w')
     = true.
Proof.
  cbv zeta. rewrite RedirectFacts.redirectToLogin_run. cbv zeta.
  unfold events_since.
  destruct (storage_has_room _ _ _).
  - destruct (URL_parse _ _) as [u|];
      cbn [snd sessionStorage log emit after_persist with_storage with_entropy].
    + split.
      * destruct (decide (state (challenge_of w) = key)) as [<-|Hne].
        -- right. split; [reflexivity | apply lookup_insert_eq].
        -- left. now apply lookup_insert_ne.
      * rewrite <- app_assoc, drop_app_length. reflexivity.
    + split.
      * destruct (decide (state (challenge_of w) = key)) as [<-|Hne].
        -- right. split; [reflexivity | apply lookup_insert_eq].
        -- left. now apply lookup_insert_ne.
      * rewrite drop_app_length. reflexivity.
  - cbn [snd sessionStorage log with_entropy]. split; [now left|].
    now rewrite drop_all.
Qed.

(** X9: [redirectToLogin] changes at most one entry of the store, the one
    under the [state] of its challenge; every other key keeps what it had.
    It never reads or removes an entry and never calls [fetch]. *)
Theorem redirectToLogin_frame (params : RedirectToLogin) (w : World) (key : string) :
  let ch := challenge_of w in
  let w' := snd (redirectToLogin params w) in
  fst (getChallenge w) = inr ch
  /\ (sessionStorage w' !! key = sessionStorage w !! key
      \/ (key = state ch /\ sessionStorage w' !! key = Some (codeVerifier ch)))
  /\ forallb (fun e => negb (is_storage_read e || is_fetch e)) (events_since w w')
     = true.
Proof.
  intros ch w'. split; [now rewrite CryptoFacts.getChallenge_run|].
  apply redirectToLogin_touches.
Qed.

(** X10: two logins started one after the other in the same session draw
    different words of the random source, and when their [state]s differ
    the store holds both verifiers, each under its own [state]; were the
    [state]s the same, the second verifier would replace the first. *)
Theorem redirectToLogin_twice (first second : RedirectToLogin) (w : World) :
  let w1 := snd (redirectToLogin first w) in
  let w2 := snd (redirectToLogin second w1) in
  let ch1 := challenge_of w in
  let ch2 := challenge_of w1 in
  storage_has_room (sessionStorage w) (state ch1) (codeVerifier ch1) = true ->
  storage_has_room (sessionStorage w1) (state ch2) (codeVerifier ch2) = true ->
  state ch2 = nonce_of (drawn_words w 8)
  /\ codeVerifier ch2 = nonce_of (drawn_words w 12)
  /\ sessionStorage w2 !! state ch2 = Some (codeVerifier ch2)
  /\ (state ch1 <> state ch2 ->
      sessionStorage w2 !! state ch1 = Some (codeVerifier ch1))
  /\ fst (getChallenge w) = inr ch1
  /\ fst (getChallenge w1) = inr ch2.
Proof.
  intros w1 w2 ch1 ch2 Hroom1 Hroom2.
  assert (Hw1 : sessionStorage w1
                = <[state ch1 := codeVerifier ch1]> (sessionStorage w)
                /\ forall i, entropy w1 i = entropy w (8 + i)%nat).
  { unfold w1. rewrite RedirectFacts.redirectToLogin_run. cbv zeta. fold ch1.
    rewrite Hroom1. destruct (URL_parse _ _); split; reflexivity. }
  destruct Hw1 as [Hstore1 Hentropy1].
  assert (Hw2 : sessionStorage w2
                = <[state ch2 := codeVerifier ch2]> (sessionStorage w1)).
  { unfold w2. rewrite RedirectFacts.redirectToLogin_run. cbv zeta. fold ch2.
    rewrite Hroom2. destruct (URL_parse _ _); reflexivity. }
  assert (Hwords : forall from, drawn_words w1 from = drawn_words w (8 + from)).
  { intros from. unfold drawn_words. apply map_ext. intros i.
    rewrite Hentropy1.
    now replace (8 + (from + i))%nat with (8 + from + i)%nat by lia. }
  split; [unfold ch2; cbn [state challenge_of]; now rewrite Hwords|].
  split; [unfold ch2; cbn [codeVerifier challenge_of]; now rewrite Hwords|].
  split; [rewrite Hw2; apply lookup_insert_eq|].
  split.
  { intros Hne. rewrite Hw2, lookup_insert_ne by congruence.
    rewrite Hstore1. apply lookup_insert_eq. }
  split; now rewrite CryptoFacts.getChallenge_run.
Qed.

End WithHost.
End LoginFacts.

(** ** More on the callback and the exchange *)

Module ExchangeFacts.
Import Js Browser JsString JsStringFacts Encoder Crypto Url UrlFacts Schemas Pkce.
Import Views Shapes CallbackFacts.

Section WithHost.
Context `{Host} `{ZodMessages}.

Lemma events_since_emit (w w' : World) (events : list Event) :
  log w' = (log w ++ events)%list -> events_since w w' = events.
Proof. intros Hlog. unfold events_since. now rewrite Hlog, drop_app_length. Qed.

(** The world after [handleCallback]: as it was, or with the verifier
    consumed, or with the verifier consumed and one request sent. *)
Lemma handleCallback_world rev (params : HandleCallback) (w : World) :
  let w' := snd (handleCallback rev params w) in
  w' = w
  \/ (exists state,
        callback_state w = Some state
        /\ (w' = after_consume state w
            \/ exists code codeVerifier,
                 callback_code w = Some code /\ code <> "" /\ state <> ""
                 /\ sessionStorage w !! state = Some codeVerifier
                 /\ codeVerifier <> ""
                 /\ w' = emit (EvFetch (token_request
                                          (exchange_request params code codeVerifier)))
                           (after_consume state w))).
Proof.
  cbv zeta. rewrite handleCallback_run.
  destruct (callback_state w) as [state|]; [|now left].
  destruct (callback_code w) as [code|];
    [|cbn [falsy]; rewrite orb_true_r; now left].
  destruct state as [|s0 state]; [now left|].
  destruct code as [|c0 code]; [now left|].
  cbn [falsy nonempty negb orb].
  right. exists (String s0 state). split; [reflexivity|].
  destruct (sessionStorage w !! String s0 state) as [[|v0 v]|] eqn:Hstore;
    cbn [falsy nonempty negb snd]; try (now left).
  right. exists (String c0 code), (String v0 v).
  rewrite exchangeCode_run. cbn [snd].
  repeat split; try discriminate; reflexivity.
Qed.

(** X12: [handleCallback] never writes to the store and never navigates;
    the only entry it can change is the one under the [state] of the page,
    which it removes; every other key, the page and the random source are
    left as they were. *)
Theorem handleCallback_frame rev (params : HandleCallback) (w : World)
    (key : string) :
  let w' := snd (handleCallback rev params w) in
  (sessionStorage w' !! key = sessionStorage w !! key
   \/ (callback_state w = Some key /\ sessionStorage w' !! key = None))
  /\ forallb (fun e => negb (is_write_or_navigation e)) (events_since w w') = true
  /\ location_search w' = location_search w
  /\ entropy w' = entropy w.
Proof.
  intros w'. destruct (handleCallback_world rev params w) as [Hw|[state [Hstate Hw]]];
    fold w' in Hw.
  - rewrite Hw. split; [now left|]. unfold events_since.
    now rewrite drop_all.
  - assert (Hstore : sessionStorage w' = delete state (sessionStorage w)).
    { destruct Hw as [-> | [code [v [_ [_ [_ [_ [_ ->]]]]]]]]; reflexivity. }
    split.
    { rewrite Hstore. destruct (decide (state = key)) as [<-|Hne].
      - right. split; [exact Hstate | apply lookup_delete_eq].
      - left. now apply lookup_delete_ne. }
    destruct Hw as [-> | [code [v [_ [_ [_ [_ [_ ->]]]]]]]].
    + split; [|split; reflexivity].
      rewrite (events_since_emit w _ [EvGetItem state; EvRemoveItem state]);
        [reflexivity|].
      cbn [log emit after_consume with_storage]. now rewrite <- app_assoc.
    + split; [|split; reflexivity].
      rewrite (events_since_emit w _
                 [EvGetItem state; EvRemoveItem state;
                  EvFetch (token_request (exchange_request params code v))]);
        [reflexivity|].
      cbn [log emit after_consume with_storage]. now rewrite <- !app_assoc.
Qed.

(** X13: no token request leaves [handleCallback] unless the page has a
    non-empty [code] and [state] and the store had a non-empty verifier
    under that [state]; the request then carries that code and that
    verifier, and it is sent after the verifier was read and removed.  With
    those three in place the request is always sent. *)
Theorem handleCallback_request rev (params : HandleCallback) (w : World) :
  let events := events_since w (snd (handleCallback rev params w)) in
  (forall req,
     In (EvFetch req) events ->
     exists code state codeVerifier,
       callback_code w = Some code /\ code <> ""
       /\ callback_state w = Some state /\ state <> ""
       /\ sessionStorage w !! state = Some codeVerifier /\ codeVerifier <> ""
       /\ req = token_request (exchange_request params code codeVerifier)
       /\ events = [EvGetItem state; EvRemoveItem state; EvFetch req])
  /\ (forall code state codeVerifier,
        callback_code w = Some code -> code <> "" ->
        callback_state w = Some state -> state <> "" ->
        sessionStorage w !! state = Some codeVerifier -> codeVerifier <> "" ->
        events
        = [EvGetItem state; EvRemoveItem state;
           EvFetch (token_request (exchange_request params code codeVerifier))]).
Proof.
  intros events. split.
  - intros req Hin. unfold events in *.
    destruct (handleCallback_world rev params w) as [Hw|[state [Hstate Hw]]].
    + rewrite Hw in Hin. unfold events_since in Hin.
      rewrite drop_all in Hin. destruct Hin.
    + destruct Hw as [Hw | [code [v [Hcode [Hc [Hs [Hstore [Hv Hw]]]]]]]];
        rewrite Hw in *.
      * rewrite (events_since_emit w _ [EvGetItem state; EvRemoveItem state]) in Hin.
        -- destruct Hin as [Hin|[Hin|[]]]; discriminate Hin.
        -- cbn [log emit after_consume with_storage]. now rewrite <- app_assoc.
      * rewrite (events_since_emit w _
                   [EvGetItem state; EvRemoveItem state;
                    EvFetch (token_request (exchange_request params code v))]) in *.
        -- destruct Hin as [Hin|[Hin|[Hin|[]]]]; try discriminate Hin.
           injection Hin as <-. exists code, state, v. repeat split; assumption.
        -- cbn [log emit after_consume with_storage]. now rewrite <- !app_assoc.
        -- cbn [log emit after_consume with_storage]. now rewrite <- !app_assoc.
  - intros code state v Hcode Hc Hstate Hs Hstore Hv. unfold events.
    rewrite (handleCallback_filled rev params w code state) by assumption.
    rewrite Hstore. destruct v as [|v0 v]; [congruence|]. cbn [nonempty snd].
    apply events_since_emit.
    cbn [log emit after_consume with_storage]. now rewrite <- !app_assoc.
Qed.

(** What passed validation has the five fields of the data, well typed. *)
Lemma validated_valid rev (rawData auth : value) :
  validated rev rawData = inr auth ->
  rejects auth = false
  /\ (forall k, In k auth_fields -> get auth k = get rawData k)
  /\ (rev = WithValidateAuth -> auth = rawData).
Proof.
  destruct rev; cbn [validated].
  - pose proof (SchemaFacts.authSchema_accepts_exactly rawData) as Hzod.
    destruct (safeParse authSchema rawData) as [issues|data]; [discriminate|].
    intros [= <-]. destruct Hzod as [Hraw [_ ->]].
    assert (Hfields : forall k, In k auth_fields ->
              get (VObject (map (fun k => (k, get rawData k))
                              ["access_token"; "expires_in"; "id_token";
                               "refresh_token"; "token_type"])) k
              = get rawData k).
    { intros k [<-|[<-|[<-|[<-|[<-|[]]]]]]; reflexivity. }
    split; [|split; [exact Hfields | discriminate]].
    unfold rejects in *.
    rewrite !Hfields by (cbn; tauto).
    apply orb_false_iff in Hraw as [Hraw H5].
    apply orb_false_iff in Hraw as [Hraw H4].
    apply orb_false_iff in Hraw as [Hraw H3].
    apply orb_false_iff in Hraw as [Hraw H2].
    apply orb_false_iff in Hraw as [_ H1].
    now rewrite H1, H2, H3, H4, H5.
  - pose proof (SchemaFacts.validateAuth_cases rawData) as Hcases.
    destruct (rejects rawData) eqn:Hr.
    + destruct Hcases as [e [He _]]. congruence.
    + intros Hauth. assert (auth = rawData) as -> by congruence.
      repeat split; auto.
Qed.

Lemma handleCallback_returns rev (params : HandleCallback) (w : World) auth :
  fst (handleCallback rev params w) = inr auth ->
  exists req, fst (exchangeCode rev req w) = inr auth.
Proof.
  intros Hauth. rewrite handleCallback_run in Hauth.
  destruct (callback_state w) as [state|]; [|discriminate Hauth].
  destruct (callback_code w) as [code|];
    [|cbn [falsy] in Hauth; rewrite orb_true_r in Hauth; discriminate Hauth].
  destruct (falsy (Some state) || falsy (Some code)); [discriminate Hauth|].
  destruct (sessionStorage w !! state) as [v|]; [|discriminate Hauth].
  destruct (falsy (Some v)); [discriminate Hauth|].
  exists (exchange_request params code v).
  rewrite exchangeCode_run in *. exact Hauth.
Qed.

(** X14: what [exchangeCode] returns, in either revision, is never a
    malformed token response: the server answered with a success status and
    a JSON body, and the value returned has the five fields of that body,
    [access_token], [id_token] and [refresh_token] strings, [expires_in] a
    number and [token_type] the string ["Bearer"]; with [validateAuth] it is
    the body itself.  The same holds for what [handleCallback] returns. *)
Theorem exchangeCode_returns_valid rev :
  (forall (req : ExchangeCode) (w : World) (auth : value),
     fst (exchangeCode rev req w) = inr auth ->
     ~ Rejected auth
     /\ exists res rawData,
          server w (token_request req) = Some res
          /\ res_ok res = true /\ res_json res = Some rawData
          /\ (forall k, In k auth_fields -> get auth k = get rawData k)
          /\ (rev = WithValidateAuth -> auth = rawData))
  /\ (forall (params : HandleCallback) (w : World) (auth : value),
        fst (handleCallback rev params w) = inr auth -> ~ Rejected auth).
Proof.
  assert (Hexchange : forall (req : ExchangeCode) (w : World) (auth : value),
            fst (exchangeCode rev req w) = inr auth ->
            ~ Rejected auth
            /\ exists res rawData,
                 server w (token_request req) = Some res
                 /\ res_ok res = true /\ res_json res = Some rawData
                 /\ (forall k, In k auth_fields -> get auth k = get rawData k)
                 /\ (rev = WithValidateAuth -> auth = rawData)).
  { intros req w auth Hauth. rewrite exchangeCode_run in Hauth.
    cbn [fst] in Hauth. unfold exchange_outcome in Hauth.
    destruct (server w (token_request req)) as [res|]; [|discriminate Hauth].
    destruct (res_json res) as [rawData|] eqn:Hjson; [|discriminate Hauth].
    destruct (res_ok res) eqn:Hok; [|discriminate Hauth].
    destruct (validated_valid rev rawData auth Hauth) as [Hvalid [Hfields Hsame]].
    split.
    - intros HR. apply SchemaFacts.rejects_Rejected in HR. congruence.
    - exists res, rawData. repeat split; assumption. }
  split; [exact Hexchange|].
  intros params w auth Hauth.
  destruct (handleCallback_returns rev params w auth Hauth) as [req Hreq].
  exact (proj1 (Hexchange req w auth Hreq)).
Qed.


End WithHost.
End ExchangeFacts.

(** ** Values written as they are *)

Module VerbatimFacts.
Import Js Browser JsString JsStringFacts Encoder Crypto Url UrlFacts Schemas Pkce.
Import Views Shapes.

Lemma replace_all_absent c d s :
  all_chars (is_not c) s = true -> replace_all c d s = s.
Proof.
  induction s as [|x s IH]; cbn [all_chars replace_all]; [reflexivity|].
  unfold is_not at 1. intros [Hx Hs]%andb_true_iff.
  apply negb_true_iff in Hx. now rewrite Hx, (IH Hs).
Qed.

Lemma percent_decode_absent s :
  all_chars (is_not "%") s = true -> percent_decode s = s.
Proof.
  induction s as [|x s IH]; cbn [all_chars percent_decode]; [reflexivity|].
  unfold is_not at 1. intros [Hx Hs]%andb_true_iff.
  apply negb_true_iff in Hx. now rewrite Hx, (IH Hs).
Qed.

Lemma form_safe_parts c :
  form_safe c = true ->
  is_not "&" c = true /\ is_not "+" c = true /\ is_not "%" c = true.
Proof.
  unfold form_safe. intros [[H1 H2]%andb_true_iff H3]%andb_true_iff. auto.
Qed.

Lemma urldecode_safe s :
  all_chars form_safe s = true -> urldecode s = utf8_decode s.
Proof.
  intros Hs. unfold urldecode. f_equal.
  rewrite replace_all_absent
    by (eapply all_chars_weaken; [|exact Hs]; intros c Hc;
        now apply form_safe_parts in Hc).
  apply percent_decode_absent.
  eapply all_chars_weaken; [|exact Hs]. intros c Hc.
  now apply form_safe_parts in Hc.
Qed.

Lemma name_safe_parts c :
  name_safe c = true -> form_safe c = true /\ is_not "=" c = true.
Proof. unfold name_safe. now intros [H1 H2]%andb_true_iff. Qed.

Lemma parse_verbatim_pair k v :
  all_chars name_safe k = true -> all_chars form_safe v = true ->
  parse_pair (k ++ "=" ++ v) = (utf8_decode k, utf8_decode v).
Proof.
  intros Hk Hv. unfold parse_pair.
  rewrite append_cons, append_nil, cut_at_sep
    by (eapply all_chars_weaken; [|exact Hk]; intros c Hc;
        now apply name_safe_parts in Hc).
  rewrite !urldecode_safe; [reflexivity | exact Hv |].
  eapply all_chars_weaken; [|exact Hk]. intros c Hc.
  now apply name_safe_parts in Hc.
Qed.

Lemma verbatim_piece k v :
  all_chars name_safe k = true -> all_chars form_safe v = true ->
  all_chars (is_not "&") (k ++ "=" ++ v) = true /\ nonempty (k ++ "=" ++ v) = true.
Proof.
  intros Hk Hv. split.
  - rewrite !all_chars_app. cbn [all_chars].
    rewrite (all_chars_weaken name_safe (is_not "&") k), (all_chars_weaken form_safe (is_not "&") v);
      try assumption; try reflexivity.
    + intros c Hc. now apply form_safe_parts in Hc.
    + intros c Hc. apply name_safe_parts in Hc as [Hc _].
      now apply form_safe_parts in Hc.
  - destruct k; reflexivity.
Qed.

(** A list of pairs written [name=value] and joined by [&], nothing
    escaped, parses back to the pairs, read as UTF-8, when no name or value
    holds a character the parser gives a meaning to. *)
Lemma urlencoded_parse_verbatim (pairs : list (string * string)) :
  Forall (fun p => all_chars name_safe (fst p) = true
                   /\ all_chars form_safe (snd p) = true) pairs ->
  urlencoded_parse (join "&" (map verbatim_pair pairs))
  = map (fun p => (utf8_decode (fst p), utf8_decode (snd p))) pairs.
Proof.
  intros Hall. unfold urlencoded_parse.
  destruct pairs as [|p pairs]; [reflexivity|].
  change (map verbatim_pair (p :: pairs))
    with (verbatim_pair p :: map verbatim_pair pairs).
  rewrite split_on_join.
  - change (verbatim_pair p :: map verbatim_pair pairs)
      with (map verbatim_pair (p :: pairs)).
    induction Hall as [|[k v] qs [Hk Hv] Hqs IH]; [reflexivity|].
    cbn [map List.filter verbatim_pair fst snd] in *.
    rewrite (proj2 (verbatim_piece k v Hk Hv)). cbn [map].
    now rewrite parse_verbatim_pair, IH.
  - change (verbatim_pair p :: map verbatim_pair pairs)
      with (map verbatim_pair (p :: pairs)).
    apply List.Forall_forall. intros x [[k v] [<- Hin]]%in_map_iff.
    rewrite List.Forall_forall in Hall. destruct (Hall _ Hin) as [Hk Hv].
    apply (verbatim_piece k v Hk Hv).
Qed.

(** X16: the body of the token request is not form-urlencoded, yet a server
    that parses it as such finds exactly the five parameters, with the
    values of the call, whenever none of [clientId], [code], [codeVerifier]
    and [redirectUri] holds one of [&], [+] and [%].  The server reads each
    value as UTF-8: [utf8_decode v] is [v] itself whenever [v] is the UTF-8
    of a string ([utf8_decode_encode]). *)
Theorem token_request_body_parses (req : ExchangeCode) :
  all_chars form_safe (xc_clientId req) = true ->
  all_chars form_safe (xc_code req) = true ->
  all_chars form_safe (xc_codeVerifier req) = true ->
  all_chars form_safe (xc_redirectUri req) = true ->
  urlencoded_parse (req_body (token_request req))
  = [ ("grant_type", "authorization_code");
      ("client_id", utf8_decode (xc_clientId req));
      ("code", utf8_decode (xc_code req));
      ("code_verifier", utf8_decode (xc_codeVerifier req));
      ("redirect_uri", utf8_decode (xc_redirectUri req)) ].
Proof.
  intros Hclient Hcode Hverifier Hredirect.
  change (req_body (token_request req))
    with (join "&"
            (map verbatim_pair
               [ ("grant_type", "authorization_code");
                 ("client_id", xc_clientId req);
                 ("code", xc_code req);
                 ("code_verifier", xc_codeVerifier req);
                 ("redirect_uri", xc_redirectUri req) ])).
  rewrite urlencoded_parse_verbatim by (repeat constructor; assumption).
  reflexivity.
Qed.

(** X17: a [code] that holds [&] is cut there by a server that parses the
    body as form-urlencoded: with [code = a ++ "&" ++ rest] the server reads
    [a] as the code (as UTF-8: [utf8_decode a] is [a] itself whenever [a] is
    the UTF-8 of a string, [utf8_decode_encode]), and [rest] as further
    parameters of the request. *)
Theorem token_request_code_truncated (req : ExchangeCode) (a rest : string) :
  xc_code req = a ++ "&" ++ rest ->
  all_chars form_safe (xc_clientId req) = true ->
  all_chars form_safe a = true ->
  URLSearchParams_get (urlencoded_parse (req_body (token_request req))) "code"
  = Some (utf8_decode a).
Proof.
  intros Hcode Hclient Ha.
  set (tail := rest ++ "&"
               ++ join "&"
                    (map verbatim_pair
                       [ ("code_verifier", xc_codeVerifier req);
                         ("redirect_uri", xc_redirectUri req) ])).
  assert (Hbody : req_body (token_request req)
                  = ("grant_type" ++ "=" ++ "authorization_code")
                    ++ String "&"
                         (("client_id" ++ "=" ++ xc_clientId req)
                          ++ String "&" (("code" ++ "=" ++ a) ++ String "&" tail))).
  { change (req_body (token_request req))
      with ("grant_type=authorization_code&"
            ++ ("client_id=" ++ xc_clientId req)
            ++ "&code=" ++ xc_code req ++ "&"
            ++ join "&"
                 (map verbatim_pair
                    [ ("code_verifier", xc_codeVerifier req);
                      ("redirect_uri", xc_redirectUri req) ])).
    rewrite Hcode. unfold tail.
    rewrite !app_assoc_string. reflexivity. }
  rewrite Hbody. unfold urlencoded_parse.
  rewrite split_on_sep by reflexivity.
  rewrite split_on_sep
    by (apply (verbatim_piece "client_id" (xc_clientId req)); [reflexivity | assumption]).
  rewrite split_on_sep
    by (apply (verbatim_piece "code" a); [reflexivity | assumption]).
  cbn [List.filter].
  rewrite (proj2 (verbatim_piece "grant_type" "authorization_code" eq_refl eq_refl)).
  rewrite (proj2 (verbatim_piece "client_id" (xc_clientId req) eq_refl Hclient)).
  rewrite (proj2 (verbatim_piece "code" a eq_refl Ha)).
  cbn [map].
  rewrite (parse_verbatim_pair "grant_type" "authorization_code" eq_refl eq_refl).
  rewrite (parse_verbatim_pair "client_id" (xc_clientId req) eq_refl Hclient).
  rewrite (parse_verbatim_pair "code" a eq_refl Ha).
  reflexivity.
Qed.


End VerbatimFacts.

(** ** More on validation *)

Module ValidatorFacts.
Import Js Browser JsString JsStringFacts Schemas Pkce Views Shapes.

(** X19: [validateAuth] reports the first guard that fails, in the order
    object, [access_token], [expires_in], [id_token], [refresh_token],
    [token_type]: each of its six messages is thrown exactly when the guards
    before it pass and its own fails. *)
Theorem validateAuth_first_failure (raw : value) :
  (validateAuth raw = inl (Error "Input must be a non-null object")
   <-> is_object raw = false)
  /\ (validateAuth raw = inl (Error "access_token must be a string")
      <-> is_object raw = true
          /\ is_string (get raw "access_token") = false)
  /\ (validateAuth raw = inl (Error "expires_in must be a number")
      <-> is_object raw = true
          /\ is_string (get raw "access_token") = true
          /\ is_number (get raw "expires_in") = false)
  /\ (validateAuth raw = inl (Error "id_token must be a string")
      <-> is_object raw = true
          /\ is_string (get raw "access_token") = true
          /\ is_number (get raw "expires_in") = true
          /\ is_string (get raw "id_token") = false)
  /\ (validateAuth raw = inl (Error "refresh_token must be a string")
      <-> is_object raw = true
          /\ is_string (get raw "access_token") = true
          /\ is_number (get raw "expires_in") = true
          /\ is_string (get raw "id_token") = true
          /\ is_string (get raw "refresh_token") = false)
  /\ (validateAuth raw = inl (Error "token_type must be 'Bearer'")
      <-> is_object raw = true
          /\ is_string (get raw "access_token") = true
          /\ is_number (get raw "expires_in") = true
          /\ is_string (get raw "id_token") = true
          /\ is_string (get raw "refresh_token") = true
          /\ strict_eq_string (get raw "token_type") "Bearer" = false).
Proof.
  unfold validateAuth, is_object.
  destruct (String.eqb (typeof raw) "object");
    destruct (match raw with VNull => true | _ => false end);
    cbn [negb andb orb];
    try (repeat split; intros; try discriminate; try reflexivity;
         intuition congruence).
  destruct (is_string (get raw "access_token")); cbn [negb];
    [|repeat split; intros; try discriminate; try reflexivity;
      intuition congruence].
  destruct (is_number (get raw "expires_in")); cbn [negb];
    [|repeat split; intros; try discriminate; try reflexivity;
      intuition congruence].
  destruct (is_string (get raw "id_token")); cbn [negb];
    [|repeat split; intros; try discriminate; try reflexivity;
      intuition congruence].
  destruct (is_string (get raw "refresh_token")); cbn [negb];
    [|repeat split; intros; try discriminate; try reflexivity;
      intuition congruence].
  destruct (strict_eq_string (get raw "token_type") "Bearer"); cbn [negb];
    repeat split; intros; try discriminate; try reflexivity;
    intuition congruence.
Qed.

Section WithMessages.
Context `{ZodMessages}.

(** X20: the two validators agree on which token responses they accept, a
    [NaN] in [expires_in] apart, which [z.number()] refuses and
    [typeof .. === 'number'] lets through; where both accept,
    [validateAuth] returns the input itself, unknown keys included, and
    [authSchema.safeParse] an object with the five fields and no other. *)
Theorem validators_agree (raw : value) :
  (forall data,
     safeParse authSchema raw = inr data ->
     validateAuth raw = inr raw
     /\ data = VObject (map (fun k => (k, get raw k)) auth_fields))
  /\ (validateAuth raw = inr raw /\ is_nan (get raw "expires_in") = false ->
      exists data, safeParse authSchema raw = inr data)
  /\ (is_nan (get raw "expires_in") = true ->
      exists issues, safeParse authSchema raw = inl issues).
Proof.
  pose proof (SchemaFacts.authSchema_accepts_exactly raw) as Hzod.
  pose proof (SchemaFacts.validateAuth_cases raw) as Hplain.
  destruct (safeParse authSchema raw) as [issues|data].
  - split; [discriminate|]. split.
    + intros [Hvalid Hnan]. destruct Hzod as [Hr|Hn]; [|congruence].
      rewrite Hr in Hplain. destruct Hplain as [e [He _]]. congruence.
    + intros _. now exists issues.
  - destruct Hzod as [Hr [Hn ->]]. rewrite Hr in Hplain. split.
    + intros data' [= <-]. split; [exact Hplain | reflexivity].
    + split; [intros _; eexists; reflexivity | congruence].
Qed.

End WithMessages.

Lemma join_snoc sep (pieces : list string) (piece : string) :
  join sep (pieces ++ [piece])
  = match pieces with
    | [] => piece
    | _ => join sep pieces ++ sep ++ piece
    end.
Proof.
  induction pieces as [|p [|q pieces] IH]; try reflexivity.
  change (join sep ((p :: q :: pieces) ++ [piece]))
    with (p ++ sep ++ join sep ((q :: pieces) ++ [piece])).
  rewrite IH.
  change (join sep (p :: q :: pieces)) with (p ++ sep ++ join sep (q :: pieces)).
  now rewrite !app_assoc_string.
Qed.

Lemma combine_snoc {A B} (xs : list A) (ys : list B) x y :
  List.length xs = List.length ys ->
  combine (xs ++ [x]) (ys ++ [y]) = (combine xs ys ++ [(x, y)])%list.
Proof.
  revert ys. induction xs as [|a xs IH]; intros [|b ys] Hlen;
    try discriminate Hlen; [reflexivity|].
  cbn. rewrite IH; [reflexivity|]. now injection Hlen.
Qed.

(** X21: [flattenIssues] gives the empty text for no issue, and numbers
    the issues from 1 in their order: one more issue after [n] others adds
    [", "] (when [n] is not 0) and the entry [n+1. path: message], the path
    joined by dots, and leaves the text of the [n] others as it was. *)
Theorem flattenIssues_numbering (issues : list ZodIssue) (issue : ZodIssue) :
  flattenIssues [] = ""
  /\ flattenIssues (issues ++ [issue])
     = match issues with
       | [] => ""
       | _ => flattenIssues issues ++ ", "
       end
       ++ toString10 (N.of_nat (List.length issues) + 1) ++ ". "
       ++ join "." (issue_path issue) ++ ": " ++ issue_message issue.
Proof.
  split; [reflexivity|].
  unfold flattenIssues.
  rewrite length_app, Nat.add_1_r, seq_S, Nat.add_0_l.
  rewrite combine_snoc by now rewrite length_seq.
  rewrite map_app. cbn [map]. rewrite join_snoc.
  destruct issues as [|i issues]; [reflexivity|].
  cbn [List.length seq combine map].
  now rewrite !app_assoc_string.
Qed.

End ValidatorFacts.

(** ** More runs on sample pages *)

Module MoreRuns.
Import Js Browser JsString Encoder Crypto Url Schemas Pkce Sample MoreSamples.
Import Views Shapes.

Lemma sample_digest_length (input : list byte) :
  List.length (sample_digest input) = 32%nat.
Proof. unfold sample_digest. now rewrite length_map, length_seq. Qed.

(** X6 with the sample digest. *)
Lemma getChallenge_shape_witness :
  exists ch w',
    getChallenge (page "" ∅ server_ok) = (inr ch, w')
    /\ String.length (state ch) = 64%nat
    /\ all_chars is_lower_hex (state ch) = true
    /\ String.length (codeVerifier ch) = 64%nat
    /\ all_chars is_lower_hex (codeVerifier ch) = true
    /\ String.length (codeChallenge ch) = 43%nat
    /\ all_chars (in_alphabet base64url_alphabet) (codeChallenge ch) = true.
Proof.
  exact (NonceFacts.getChallenge_shape (H := sample_host) (page "" ∅ server_ok)
           sample_digest_length).
Defined.

(** X7 on a login whose [idpUrl] is empty: the verifier stays stored. *)
Lemma redirectToLogin_invalid_url_witness :
  log (snd (redirectToLogin login_without_idp (page "" ∅ server_ok)))
  = [ EvSetItem
        "3b49576573778a9ba7b3c0cddee4f003061824324154596b77868d95a9b9c6d5"
        "586372849299a4b8c7d2d4e8fa060e212f35464f566a74858fa2aabac2d1dfe5" ].
Proof.
  destruct (LoginFacts.redirectToLogin_invalid_url (H := sample_host)
              login_without_idp (page "" ∅ server_ok))
    as [_ [Hlog _]].
  - reflexivity.
  - reflexivity.
  - rewrite Hlog. vm_compute. reflexivity.
Defined.

(** X8 on a host whose store is full. *)
Lemma redirectToLogin_store_full_witness :
  fst (redirectToLogin (H := crowded_host) sample_login (page "" ∅ server_ok))
  = inl QuotaExceededError.
Proof.
  refine (proj1 (LoginFacts.redirectToLogin_store_full (H := crowded_host)
                   sample_login (page "" ∅ server_ok) _)).
  reflexivity.
Defined.

(** X10 on two sample logins: both verifiers are in the store. *)
Lemma redirectToLogin_twice_witness :
  sessionStorage
    (snd (redirectToLogin sample_login
            (snd (redirectToLogin sample_login (page "" ∅ server_ok)))))
  !! state (challenge_of (page "" ∅ server_ok))
  = Some (codeVerifier (challenge_of (page "" ∅ server_ok))).
Proof.
  destruct (LoginFacts.redirectToLogin_twice (H := sample_host)
              sample_login sample_login (page "" ∅ server_ok))
    as [_ [_ [_ [Hboth _]]]].
  - reflexivity.
  - reflexivity.
  - apply Hboth. vm_compute. discriminate.
Defined.

(** X11 on the sample login and callback. *)
Lemma callback_after_login_witness :
  log (snd (handleCallback WithValidateAuth sample_callback
              (mkWorld
                 (sessionStorage
                    (snd (redirectToLogin sample_login (page "" ∅ server_ok))))
                 ("?" ++ URLSearchParams_toString
                           [ ("code", "abc/123");
                             ("state", state (challenge_of (page "" ∅ server_ok))) ])
                 (entropy (snd (redirectToLogin sample_login (page "" ∅ server_ok))))
                 (server (snd (redirectToLogin sample_login (page "" ∅ server_ok))))
                 [])))
  = [ EvGetItem (state (challenge_of (page "" ∅ server_ok)));
      EvRemoveItem (state (challenge_of (page "" ∅ server_ok)));
      EvFetch (token_request
                 (exchange_request sample_callback "abc/123"
                    (codeVerifier (challenge_of (page "" ∅ server_ok))))) ].
Proof.
  refine (proj1 (CallbackFacts.callback_after_login (H := sample_host)
                   WithValidateAuth sample_login sample_callback
                   (page "" ∅ server_ok)
                   (mkURL true "https://idp.example/login" None None)
                   "abc/123" _ _ _ _ _)).
  - reflexivity.
  - reflexivity.
  - discriminate.
  - vm_compute. discriminate.
  - vm_compute. discriminate.
Defined.


(** X16 on the sample exchange. *)
Lemma token_request_body_parses_witness :
  urlencoded_parse (req_body (token_request sample_exchange))
  = [ ("grant_type", "authorization_code");
      ("client_id", "client1");
      ("code", "abc123");
      ("code_verifier", "verifier");
      ("redirect_uri", "https://app.example/cb") ].
Proof.
  apply (VerbatimFacts.token_request_body_parses sample_exchange); reflexivity.
Defined.

(** X17 on a code that holds [&]: the server reads [abc]. *)
Lemma token_request_code_truncated_witness :
  URLSearchParams_get
    (urlencoded_parse (req_body (token_request exchange_with_ampersand))) "code"
  = Some "abc".
Proof.
  apply (VerbatimFacts.token_request_code_truncated exchange_with_ampersand
           "abc" "redirect_uri=https://other.example"); reflexivity.
Defined.


End MoreRuns.
